(** * vue-go: the product e-mail endpoint of [main.go]

    A shallow embedding of [main.go] (configuration, e-mail service, HTTP
    handler, CORS middleware and router set-up) together with the parts of
    the Go standard library, gin and mailgun-go that the program calls, and
    the properties of the program proved over it.

    Conventions.
    - A Go [string] is a [string] (a sequence of bytes).
    - A Go [float64] is a [spec_float]: the IEEE 754 binary64 datum with its
      sign, its integer significand and its binary exponent.
    - A Go [error] is an [option string]: [None] is [nil].
    - [gin.H] and [http.Header] are finite maps keyed by strings.
    - The mutable [*gin.Context] is passed explicitly from call to call; the
      calls of [mg.Send] are recorded in a [World]. *)

From Stdlib Require Import ZArith String Ascii Lia.
From Stdlib Require Import DecimalString DecimalN DecimalPos.
From Stdlib Require Import QArith Qabs.
From Stdlib Require Import Floats.SpecFloat.
From stdpp Require Import base option list gmap strings.

Local Open Scope string_scope.
Local Open Scope Z_scope.

(** The Go [error] interface: [None] is the [nil] error. *)
Definition error : Type := option string.

Definition float64 : Type := spec_float.

(** ** Package strconv: fixed-point rendering of a [float64] *)
Module strconv.

(** The quotient [num / den] ([0 <= num], [0 < den]) rounded to the nearest
    integer, an exact half going to the even neighbour: the rounding that
    [decimal.Round] applies to the exact decimal expansion. *)
Definition roundHalfEven (num den : Z) : Z :=
  let q := num / den in
  let r := num mod den in
  match 2 * r ?= den with
  | Lt => q
  | Gt => q + 1
  | Eq => if Z.even q then q else q + 1
  end.

(** [m * 2^e * 10^prec], rounded to an integer. *)
Definition scaled (m : positive) (e : Z) (prec : nat) : Z :=
  let p := 10 ^ Z.of_nat prec in
  if 0 <=? e then Z.pos m * 2 ^ e * p
  else roundHalfEven (Z.pos m * p) (2 ^ (- e)).

Definition digit (d : Z) : ascii := ascii_of_N (48 + Z.to_N d).

(** The [k] low decimal digits of [n], most significant first. *)
Fixpoint fixedDigits (k : nat) (n : Z) (rest : string) : string :=
  match k with
  | O => rest
  | S k' => fixedDigits k' (n / 10) (String (digit (n mod 10)) rest)
  end.

Definition decimal (n : Z) : string := NilZero.string_of_uint (N.to_uint (Z.to_N n)).

(** [%f] of a non-negative scaled integer: integer part, then [prec]
    fraction digits ([fmtF]). *)
Definition fmtF (neg : bool) (n : Z) (prec : nat) : string :=
  let p := 10 ^ Z.of_nat prec in
  (if neg then "-" else EmptyString) +:+ decimal (n / p) +:+
  match prec with
  | O => EmptyString
  | S _ => String "." (fixedDigits prec (n mod p) EmptyString)
  end.

(** [strconv.FormatFloat(x, 'f', prec, 64)] for [prec >= 0]. *)
Definition FormatFloat_f (x : float64) (prec : nat) : string :=
  match x with
  | S754_nan => "NaN"
  | S754_infinity false => "+Inf"
  | S754_infinity true => "-Inf"
  | S754_zero s => fmtF s 0 prec
  | S754_finite s m e => fmtF s (scaled m e prec) prec
  end.

End strconv.

(** ** Package fmt: [Sprintf] for the verbs the program uses *)
Module fmt.

Inductive directive :=
| Lit (c : ascii)          (* an ordinary byte of the format *)
| Verb_s                   (* %s *)
| Verb_f (prec : nat).     (* %.Nf, N one decimal digit *)

Definition isDigit (c : ascii) : bool :=
  let n := N_of_ascii c in ((48 <=? n) && (n <=? 57))%N.

Definition digitVal (c : ascii) : nat := N.to_nat (N_of_ascii c - 48).

(** The verbs of a format string; [None] when the format uses a verb
    outside [%s] and [%.Nf]. *)
Fixpoint parse (format : string) : option (list directive) :=
  match format with
  | EmptyString => Some []
  | String c rest =>
    if Ascii.eqb c "%" then
      match rest with
      | String v rest1 =>
        if Ascii.eqb v "s" then cons Verb_s <$> parse rest1
        else if Ascii.eqb v "." then
          match rest1 with
          | String d (String f rest2) =>
            if isDigit d && Ascii.eqb f "f"
            then cons (Verb_f (digitVal d)) <$> parse rest2
            else None
          | _ => None
          end
        else None
      | EmptyString => None
      end
    else cons (Lit c) <$> parse rest
  end.

(** [%.Nf] of a [float64] operand ([fmtFloat]): the sign is shown only when
    negative; an infinity keeps its sign and [NaN] has none. *)
Definition fmtFloat (x : float64) (prec : nat) : string :=
  strconv.FormatFloat_f x prec.

(** The Go type of the operands that a list of verbs consumes. *)
Fixpoint operands (ds : list directive) : Type :=
  match ds with
  | [] => string
  | Lit _ :: ds' => operands ds'
  | Verb_s :: ds' => string -> operands ds'
  | Verb_f _ :: ds' => float64 -> operands ds'
  end.

(** [doPrintf]: the output is built left to right; [k] holds what has been
    printed so far. *)
Fixpoint doPrintf (ds : list directive) (k : string -> string) : operands ds :=
  match ds with
  | [] => k EmptyString
  | Lit c :: ds' => doPrintf ds' (fun rest => k (String c rest))
  | Verb_s :: ds' => fun s => doPrintf ds' (fun rest => k (s +:+ rest))
  | Verb_f prec :: ds' => fun x => doPrintf ds' (fun rest => k (fmtFloat x prec +:+ rest))
  end.

Definition SprintfType (format : string) : Type :=
  match parse format with
  | Some ds => operands ds
  | None => unit
  end.

(** [fmt.Sprintf(format, a...)], the operands taken one by one. *)
Definition Sprintf (format : string) : SprintfType format :=
  match parse format as o
    return match o with Some ds => operands ds | None => unit end
  with
  | Some ds => doPrintf ds (fun s => s)
  | None => tt
  end.

End fmt.

(** ** Packages time and context *)
Module time.
(** A [time.Duration] counts nanoseconds. *)
Definition Second : Z := 1000000000.
End time.

Module context.
Inductive Context :=
| Background
| WithTimeout (parent : Context) (timeout : Z).
End context.

(** ** Package mailgun-go/v4 *)
Module mailgun.

Record Message := {
  from : string;
  subject : string;
  text : string;
  to : list string
}.

(** [NewMessage(from, subject, text, to...)] *)
Definition NewMessage (from subject text : string) (to : list string) : Message :=
  {| from := from; subject := subject; text := text; to := to |}.

Record MailgunImpl := {
  domain : string;
  apiKey : string
}.

Definition NewMailgun (domain apiKey : string) : MailgunImpl :=
  {| domain := domain; apiKey := apiKey |}.

(** What a call of [Send] reports, under the names of its results
    [(mes string, id string, err error)]: the human-readable status
    message of the provider, the id of the queued message, and the error,
    which is the provider's or the client's own. *)
Record SendResult := {
  mes : string;
  id : string;
  err : error
}.

(** The behaviour of [Send] on a client, an external collaborator: what
    it reports for a client, a context and a message. The report comes from
    the provider, or from the client itself when it refuses the call before
    any request is made (an empty domain or key, a message it holds
    invalid). *)
Definition Provider : Type := MailgunImpl -> context.Context -> Message -> SendResult.

End mailgun.

(** The world outside the process: the calls of [mg.Send] made so far,
    oldest first, each with the client it was called on, its context and
    its message. It is a log of calls, not of deliveries: whether a call
    reaches the provider is up to the client. *)
Record World := {
  outbox : list (mailgun.MailgunImpl * context.Context * mailgun.Message)
}.

(** [mg.Send(ctx, message)]: one call of the client, recorded in the
    world; the three results are returned in the order [mes], [id],
    [err]. *)
Definition mailgun_Send (provider : mailgun.Provider) (mg : mailgun.MailgunImpl)
    (ctx : context.Context) (m : mailgun.Message) (w : World)
    : (string * string * error) * World :=
  let r := provider mg ctx m in
  ((mailgun.mes r, mailgun.id r, mailgun.err r),
   {| outbox := (outbox w ++ [(mg, ctx, m)])%list |}).

(** ** Package net/http *)
Module http.

Abbreviation Header := (gmap string (list string)).

(** [h.Set(key, value)]; every key the program uses is already in canonical
    form. *)
Definition Header_Set (key value : string) (h : Header) : Header :=
  <[key := [value]]> h.

Record Request := {
  Method : string;
  Path : string;                  (* URL.Path *)
  Body : string;
  Ctx : context.Context;          (* what r.Context() returns *)
  RedirectTo : string
    (* URL.String() once redirectTrailingSlash has rewritten the path: the
       path with its final slash toggled, under the X-Forwarded-Prefix of
       the request if it has one, followed by its query string if it has
       one; read by the trailing-slash redirect only *)
}.

End http.

(** ** Package gin *)
Module gin.

(** [gin.H]; every value the program stores in one is a string. *)
Abbreviation H := (gmap string string).

(** What is written to the connection after the header. The encoding of a
    JSON document is left to [json.Marshal]: the document itself is kept. *)
Inductive chunk :=
| JSONBytes (obj : H)                      (* json.Marshal(obj) *)
| Bytes (s : string)
| RedirectNote (url : string) (code : Z).  (* the note http.Redirect writes for GET *)

(** [responseWriter]. [written] is [size != noWritten]; [wire] is the
    status line and the header as sent by [WriteHeaderNow], after which
    changes to [header] no longer reach the client. *)
Record responseWriter := {
  header : http.Header;
  status : Z;
  written : bool;
  wire : option (Z * http.Header);
  body : list chunk
}.

Definition defaultStatus : Z := 200.

(** [responseWriter.reset] *)
Definition newWriter : responseWriter :=
  {| header := ∅; status := defaultStatus; written := false; wire := None; body := [] |}.

Record Context := {
  Request : http.Request;
  Writer : responseWriter;
  index : Z;
  Errors : list string
}.

Definition setWriter (w : responseWriter) (c : Context) : Context :=
  {| Request := Request c; Writer := w; index := index c; Errors := Errors c |}.

Definition setIndex (i : Z) (c : Context) : Context :=
  {| Request := Request c; Writer := Writer c; index := i; Errors := Errors c |}.

(** [c.Writer.Header().Set(key, value)] *)
Definition Header_Set (key value : string) (c : Context) : Context :=
  let w := Writer c in
  setWriter {| header := http.Header_Set key value (header w); status := status w;
               written := written w; wire := wire w; body := body w |} c.

(** [responseWriter.WriteHeader]: the status can change until the header
    has been written. *)
Definition WriteHeader (code : Z) (w : responseWriter) : responseWriter :=
  if (0 <? code) && negb (status w =? code) then
    if written w then w
    else {| header := header w; status := code; written := written w;
            wire := wire w; body := body w |}
  else w.

(** [responseWriter.WriteHeaderNow] *)
Definition WriteHeaderNow (w : responseWriter) : responseWriter :=
  if written w then w
  else {| header := header w; status := status w; written := true;
          wire := Some (status w, header w); body := body w |}.

(** [responseWriter.Write] *)
Definition Write (data : chunk) (w : responseWriter) : responseWriter :=
  let w := WriteHeaderNow w in
  {| header := header w; status := status w; written := written w;
     wire := wire w; body := (body w ++ [data])%list |}.

(** [c.Status(code)] *)
Definition Status (code : Z) (c : Context) : Context :=
  setWriter (WriteHeader code (Writer c)) c.

Definition abortIndex : Z := 63.

(** [c.Abort()] *)
Definition Abort (c : Context) : Context := setIndex abortIndex c.

(** [c.AbortWithStatus(code)] *)
Definition AbortWithStatus (code : Z) (c : Context) : Context :=
  let c := Status code c in
  let c := setWriter (WriteHeaderNow (Writer c)) c in
  Abort c.

(** [c.Error(err)] *)
Definition Error (e : string) (c : Context) : Context :=
  {| Request := Request c; Writer := Writer c; index := index c;
     Errors := (Errors c ++ [e])%list |}.

(** [c.AbortWithError(code, err)] *)
Definition AbortWithError (code : Z) (e : string) (c : Context) : Context :=
  Error e (AbortWithStatus code c).

(** [c.BindJSON(obj)] is [c.MustBindWith(obj, binding.JSON)]: when the body
    does not bind, the request is aborted with 400 before the error is
    returned. [bind] is [binding.JSON.Bind] for the type of [obj]; the
    program puts no size limit on the body, so 413 does not arise. *)
Definition BindJSON {A : Type} (bind : string -> string + A) (c : Context)
    : Context * (string + A) :=
  match bind (http.Body (Request c)) with
  | inl e => (AbortWithError 400 e c, inl e)
  | inr obj => (c, inr obj)
  end.

Definition bodyAllowedForStatus (code : Z) : bool :=
  if (100 <=? code) && (code <=? 199) then false
  else if code =? 204 then false
  else if code =? 304 then false
  else true.

(** [writeContentType]: the content type is set unless one is present. *)
Definition writeContentType (value : string) (w : responseWriter) : responseWriter :=
  match header w !! "Content-Type" with
  | Some (_ :: _) => w
  | _ => {| header := <["Content-Type" := [value]]> (header w); status := status w;
            written := written w; wire := wire w; body := body w |}
  end.

Definition jsonContentType : string := "application/json; charset=utf-8".

(** [c.JSON(code, obj)] is [c.Render(code, render.JSON{Data: obj})];
    marshalling a map of strings cannot fail. *)
Definition JSON (code : Z) (obj : H) (c : Context) : Context :=
  let c := Status code c in
  if bodyAllowedForStatus code then
    setWriter (Write (JSONBytes obj) (writeContentType jsonContentType (Writer c))) c
  else
    setWriter (WriteHeaderNow (writeContentType jsonContentType (Writer c))) c.

(** A handler acts on the context and on the world. [HandlerFunc] is the
    body of a handler given the meaning of [c.Next()] in its chain. *)
Definition Step : Type := Context -> World -> Context * World.
Definition HandlerFunc : Type := Step -> Step.

Definition incr (c : Context) : Context := setIndex (index c + 1) c.

(** The loop of [c.Next()], entered after [c.index++]:
    [for c.index < len(c.handlers) { c.handlers[c.index](c); c.index++ }].
    Every turn and every nested [c.Next()] raises [c.index], so
    [len(c.handlers) + 1] units of [fuel] are never used up. *)
Fixpoint loop (fuel : nat) (handlers : list HandlerFunc) (c : Context) (w : World)
    : Context * World :=
  match fuel with
  | O => (c, w)
  | S fuel' =>
    if index c <? Z.of_nat (length handlers) then
      match handlers !! Z.to_nat (index c) with
      | Some h =>
        let '(c1, w1) := h (fun c0 w0 => loop fuel' handlers (incr c0) w0) c w in
        loop fuel' handlers (incr c1) w1
      | None => (c, w)
      end
    else (c, w)
  end.

(** [c.Next()] with [c.handlers = handlers]. *)
Definition Next (handlers : list HandlerFunc) : Step :=
  fun c w => loop (S (length handlers)) handlers (incr c) w.

(** [Logger()] and [Recovery()], the middleware of [gin.Default()]: they
    run the rest of the chain; the log line and the recovery from a panic
    leave the response as it is. *)
Definition Logger : HandlerFunc := fun next c w => next c w.
Definition Recovery : HandlerFunc := fun next c w => next c w.

Record route := {
  method : string;
  path : string;
  handlers : list HandlerFunc
}.

Record Engine := {
  Handlers : list HandlerFunc;      (* the middleware of the root group *)
  trees : list route;
  allNoRoute : list HandlerFunc;
  RedirectTrailingSlash : bool
}.

(** [gin.New()] *)
Definition New : Engine :=
  {| Handlers := []; trees := []; allNoRoute := []; RedirectTrailingSlash := true |}.

(** [engine.Use(middleware)]; no [NoRoute] handler is installed, so the
    chain for unmatched requests is the middleware alone. *)
Definition Use (middleware : HandlerFunc) (e : Engine) : Engine :=
  let hs := (Handlers e ++ [middleware])%list in
  {| Handlers := hs; trees := trees e; allNoRoute := hs;
     RedirectTrailingSlash := RedirectTrailingSlash e |}.

(** [gin.Default()] *)
Definition Default : Engine := Use Recovery (Use Logger New).

(** [engine.POST(path, handler)]: the route gets the middleware installed
    so far, followed by its handler. *)
Definition POST (path : string) (handler : HandlerFunc) (e : Engine) : Engine :=
  {| Handlers := Handlers e;
     trees := (trees e ++ [{| method := "POST"; path := path;
                              handlers := Handlers e ++ [handler] |}])%list;
     allNoRoute := allNoRoute e;
     RedirectTrailingSlash := RedirectTrailingSlash e |}.

(** [root.getValue] over static routes: the chain registered for the
    method and path, if any. *)
Fixpoint getValue (ts : list route) (m p : string) : option (list HandlerFunc) :=
  match ts with
  | [] => None
  | r :: ts' =>
    if String.eqb (method r) m && String.eqb (path r) p then Some (handlers r)
    else getValue ts' m p
  end.

(** The trailing-slash recommendation of [getValue]: a route of the same
    method exists for the path with, or without, a final slash. *)
Definition tsr (ts : list route) (m p : string) : bool :=
  existsb (fun r => String.eqb (method r) m &&
                    (String.eqb (path r +:+ "/") p || String.eqb (p +:+ "/") (path r))) ts.

(** [redirectTrailingSlash], then [redirectRequest]: the router answers by
    itself, with no handler of any chain run. The URL of the redirect is
    the one the request carries as [RedirectTo]. *)
Definition redirectTrailingSlash (c : Context) : Context :=
  let req := Request c in
  let target := http.RedirectTo req in
  let isGet := String.eqb (http.Method req) "GET" in
  let code := if isGet then 301 else 307 in
  let c := Header_Set "Location" target c in
  let c := if isGet || String.eqb (http.Method req) "HEAD"
           then Header_Set "Content-Type" "text/html; charset=utf-8" c else c in
  let w := WriteHeaderNow (WriteHeader code (Writer c)) in
  let w := if isGet then Write (RedirectNote target code) w else w in
  setWriter w c.

Definition default404Body : string := "404 page not found".

(** [serveError(c, code, defaultMessage)] with [c.handlers = handlers]. *)
Definition serveError (handlers : list HandlerFunc) (code : Z) (defaultMessage : string)
    : Step := fun c w =>
  let c := setWriter {| header := header (Writer c); status := code;
                        written := written (Writer c); wire := wire (Writer c);
                        body := body (Writer c) |} c in
  let '(c, w) := Next handlers c w in
  if written (Writer c) then (c, w)
  else if status (Writer c) =? code then
    let wr := Writer c in
    let wr := {| header := <["Content-Type" := ["text/plain"]]> (header wr);
                 status := status wr; written := written wr; wire := wire wr;
                 body := body wr |} in
    (setWriter (Write (Bytes defaultMessage) wr) c, w)
  else (setWriter (WriteHeaderNow (Writer c)) c, w).

(** [engine.handleHTTPRequest]; [HandleMethodNotAllowed] and
    [RedirectFixedPath] keep their default, off. *)
Definition handleHTTPRequest (e : Engine) : Step := fun c w =>
  let m := http.Method (Request c) in
  let p := http.Path (Request c) in
  if existsb (fun r => String.eqb (method r) m) (trees e) then
    match getValue (trees e) m p with
    | Some hs =>
      let '(c, w) := Next hs c w in
      (setWriter (WriteHeaderNow (Writer c)) c, w)
    | None =>
      if negb (String.eqb m "CONNECT") && negb (String.eqb p "/") &&
         tsr (trees e) m p && RedirectTrailingSlash e
      then (redirectTrailingSlash c, w)
      else serveError (allNoRoute e) 404 default404Body c w
    end
  else serveError (allNoRoute e) 404 default404Body c w.

(** What the engine writes for a request it is given: the status line, the
    header as the handlers left it when it was sent, and the body. It is
    not yet what the client receives: net/http adds headers of its own
    ([Date], [Content-Length], a sniffed [Content-Type] when none is set),
    withholds the body of the response to a HEAD request, and answers some
    requests without calling the engine ([OPTIONS *]). *)
Record Response := {
  StatusCode : Z;
  Header : http.Header;
  Body : list chunk
}.

Definition response (w : responseWriter) : Response :=
  match wire w with
  | Some (code, h) => {| StatusCode := code; Header := h; Body := body w |}
  | None => {| StatusCode := status w; Header := header w; Body := body w |}
  end.

(** [engine.ServeHTTP], for a request net/http hands to the engine: a fresh
    context for the request ([c.reset()]), then [handleHTTPRequest]. *)
Definition ServeHTTP (e : Engine) (req : http.Request) (w : World) : Response * World :=
  let c := {| Request := req; Writer := newWriter; index := -1; Errors := [] |} in
  let '(c, w) := handleHTTPRequest e c w in
  (response (Writer c), w).

End gin.

(** ** main.go *)

(** Config holds the application configuration *)
Record Config := {
  Domain : string;
  ApiKey : string;
  FromName : string;
  FromEmail : string
}.

(** EmailService handles all email related operations *)
Record EmailService := {
  mg : mailgun.MailgunImpl;
  config : Config
}.

(** ProductEmail represents the product email request *)
Record ProductEmail := {
  ProductName : string;
  Price : float64;
  Description : string;
  RecipientEmail : string       (* json:"email" *)
}.

(** NewEmailService creates a new email service instance *)
Definition NewEmailService (config : Config) : EmailService :=
  {| mg := mailgun.NewMailgun (Domain config) (ApiKey config);
     config := config |}.

(** formatProductEmail formats the email body *)
Definition formatProductEmail (s : EmailService) (data : ProductEmail) : string :=
  fmt.Sprintf "
Product Details:
---------------
Name: %s
Price: $%.2f
Description: %s
"
    (ProductName data)
    (Price data)
    (Description data).

(** Handler represents the HTTP handler dependencies *)
Record Handler := {
  emailService : EmailService
}.

(** NewHandler creates a new handler instance *)
Definition NewHandler (emailService : EmailService) : Handler :=
  {| emailService := emailService |}.

(** [os.Getenv]: an unset variable reads as the empty string. *)
Definition Getenv (env : gmap string string) (key : string) : string :=
  default EmptyString (env !! key).

Section Program.

(** The e-mail provider behind the mailgun client. *)
Variable provider : mailgun.Provider.

(** [binding.JSON.Bind] at [*ProductEmail]: the decoding of a request body by
    encoding/json into the fields tagged [product_name], [price],
    [description] and [email], or the error of the decoder. *)
Variable bindProductEmail : string -> string + ProductEmail.

(** SendProductEmail sends product details via email *)
Definition SendProductEmail (s : EmailService) (ctx : context.Context) (data : ProductEmail)
    (w : World) : (string * string * error) * World :=
  let emailBody := formatProductEmail s data in
  let sender := fmt.Sprintf "%s <%s@%s>"
                  (FromName (config s)) (FromEmail (config s)) (Domain (config s)) in
  let message := mailgun.NewMessage
                   sender
                   "Product Information"
                   emailBody
                   [RecipientEmail data] in
  mailgun_Send provider (mg s) ctx message w.

(** SendProductHandler handles the product email endpoint *)
Definition SendProductHandler (h : Handler) : gin.HandlerFunc := fun _ c w =>
  match gin.BindJSON bindProductEmail c with
  | (c, inl _) =>
    (gin.JSON 400 {[ "error" := "Invalid request body" ]} c, w)
  | (c, inr productData) =>
    let ctx := context.WithTimeout (http.Ctx (gin.Request c)) (time.Second * 10) in
    let '(resp, id, err, w) := SendProductEmail (emailService h) ctx productData w in
    match err with
    | Some _ =>
      (gin.JSON 500 {[ "error" := "Failed to send email" ]} c, w)
    | None =>
      (gin.JSON 200 (<[ "message" := "Email sent successfully" ]>
                     (<[ "id" := id ]>
                      (<[ "response" := resp ]> ∅))) c, w)
    end
  end.

(** The CORS middleware installed by [main]. *)
Definition corsMiddleware : gin.HandlerFunc := fun next c w =>
  let c := gin.Header_Set "Access-Control-Allow-Origin" "http://localhost:5173" c in
  let c := gin.Header_Set "Access-Control-Allow-Methods" "POST, OPTIONS" c in
  let c := gin.Header_Set "Access-Control-Allow-Headers" "Content-Type" c in
  let c := gin.Header_Set "Access-Control-Max-Age" "86400" c in
  if String.eqb (http.Method (gin.Request c)) "OPTIONS" then
    (gin.AbortWithStatus 204 c, w)
  else
    next c w.

(** [main] up to [r.Run]: [dotenv] is what [godotenv.Load] found in the
    [.env] file (or its error), [env] the environment of the process, whose
    variables take precedence over the file. The result is the fatal log
    message, or the router that serves on [:8080]. *)
Definition main (dotenv : string + gmap string string) (env : gmap string string)
    : string + gin.Engine :=
  match dotenv with
  | inl _ => inl "Error loading .env file"
  | inr vars =>
    let env := env ∪ vars in
    let config := {| Domain := Getenv env "MAILGUN_DOMAIN";
                     ApiKey := Getenv env "MAILGUN_API_KEY";
                     FromName := Getenv env "MAILGUN_FROM_NAME";
                     FromEmail := Getenv env "MAILGUN_FROM_EMAIL" |} in
    let emailService := NewEmailService config in
    let handler := NewHandler emailService in
    let r := gin.Default in
    let r := gin.Use corsMiddleware r in
    let r := gin.POST "/send-product" (SendProductHandler handler) r in
    inr r
  end.

End Program.

(** * The vocabulary of the properties *)

(** The router [main] hands to [r.Run], [vars] being the contents of the
    [.env] file. *)
Definition router (provider : mailgun.Provider)
    (bindProductEmail : string -> string + ProductEmail)
    (vars env : gmap string string) : gin.Engine :=
  match main provider bindProductEmail (inr vars) env with
  | inr r => r
  | inl _ => gin.New
  end.

(** The configuration [main] reads: the four variables, the process
    environment taking precedence over the [.env] file. *)
Definition loadedConfig (vars env : gmap string string) : Config :=
  {| Domain := Getenv (env ∪ vars) "MAILGUN_DOMAIN";
     ApiKey := Getenv (env ∪ vars) "MAILGUN_API_KEY";
     FromName := Getenv (env ∪ vars) "MAILGUN_FROM_NAME";
     FromEmail := Getenv (env ∪ vars) "MAILGUN_FROM_EMAIL" |}.

(** The message [SendProductEmail] composes for a request. *)
Definition productMessage (s : EmailService) (data : ProductEmail) : mailgun.Message :=
  mailgun.NewMessage
    (FromName (config s) +:+ " <" +:+ FromEmail (config s) +:+ "@" +:+ Domain (config s) +:+ ">")
    "Product Information"
    (formatProductEmail s data)
    [RecipientEmail data].

(** The deadline-bound context the handler derives for a request. *)
Definition sendContext (req : http.Request) : context.Context :=
  context.WithTimeout (http.Ctx req) (time.Second * 10).

(** The sender addresses of the messages handed to [mg.Send] so far. *)
Definition senders (w : World) : list string :=
  map (fun cm => mailgun.from (snd cm)) (outbox w).

(** The headers the CORS middleware leaves on a response. *)
Definition corsHeader : http.Header :=
  http.Header_Set "Access-Control-Max-Age" "86400"
    (http.Header_Set "Access-Control-Allow-Headers" "Content-Type"
      (http.Header_Set "Access-Control-Allow-Methods" "POST, OPTIONS"
        (http.Header_Set "Access-Control-Allow-Origin" "http://localhost:5173" ∅))).

(** The context as the CORS middleware leaves it. *)
Definition withCors (c : gin.Context) : gin.Context :=
  gin.Header_Set "Access-Control-Max-Age" "86400"
    (gin.Header_Set "Access-Control-Allow-Headers" "Content-Type"
      (gin.Header_Set "Access-Control-Allow-Methods" "POST, OPTIONS"
        (gin.Header_Set "Access-Control-Allow-Origin" "http://localhost:5173" c))).

(** The writer of a fresh context after the CORS middleware. *)
Definition corsWriter (status : Z) : gin.responseWriter :=
  {| gin.header := corsHeader; gin.status := status; gin.written := false;
     gin.wire := None; gin.body := [] |}.

(** A handler is regular when it uses [c.Next()] only on contexts at or
    past its own position, and leaves the context at or past its own
    position provided [c.Next()] does. *)
Definition regular (h : gin.HandlerFunc) : Prop :=
  forall (next next' : gin.Step) (c : gin.Context) (w : World),
    gin.index c < gin.abortIndex ->
    (forall c' w', gin.index c <= gin.index c' -> next c' w' = next' c' w') ->
    (forall c' w', gin.index c <= gin.index c' ->
                   gin.index c' <= gin.index (fst (next c' w'))) ->
    h next c w = h next' c w /\ gin.index c <= gin.index (fst (h next c w)).

(** ** The body of the e-mail *)

(** The line break. *)
Definition nl : string := String (ascii_of_N 10) EmptyString.

(** The five lines of the template. *)
Definition templateLines (data : ProductEmail) : list string :=
  [ "Product Details:";
    "---------------";
    "Name: " +:+ ProductName data;
    "Price: $" +:+ strconv.FormatFloat_f (Price data) 2;
    "Description: " +:+ Description data ].

(** ** The rendering of the price *)

Definition isFinite (x : float64) : bool :=
  match x with
  | S754_zero _ | S754_finite _ _ _ => true
  | _ => false
  end.

Definition signbit (x : float64) : bool :=
  match x with
  | S754_zero s | S754_infinity s | S754_finite s _ _ => s
  | S754_nan => false
  end.

(** The absolute value of a finite [float64], as a rational. *)
Definition magnitude (x : float64) : Q :=
  match x with
  | S754_finite _ m e =>
    if 0 <=? e then inject_Z (Z.pos m * 2 ^ e)
    else Qmake (Z.pos m) (2 ^ Z.to_pos (- e))
  | _ => 0%Q
  end.

(** [n] hundredths is a multiple of 0.01 nearest to the magnitude of [x]. *)
Definition nearestHundredths (x : float64) (n : Z) : Prop :=
  (Qabs (inject_Z 100 * magnitude x - inject_Z n) <= Qmake 1 2)%Q.

(** The magnitude of [x] lies exactly half way between two multiples of
    0.01, [n] hundredths being one of them. *)
Definition halfWay (x : float64) (n : Z) : Prop :=
  (Qabs (inject_Z 100 * magnitude x - inject_Z n) == Qmake 1 2)%Q.

(** The text before the first point of [s], and the text after it. *)
Fixpoint splitPoint (s : string) : option (string * string) :=
  match s with
  | EmptyString => None
  | String c t =>
    if Ascii.eqb c "." then Some (EmptyString, t)
    else match splitPoint t with
         | Some (a, b) => Some (String c a, b)
         | None => None
         end
  end.

Definition digitValue (c : ascii) : option Z :=
  if fmt.isDigit c then Some (Z.of_N (N_of_ascii c) - 48) else None.

Definition readNumeral (s : string) : option Z :=
  match NilZero.uint_of_string s with
  | Some u => Some (Z.of_N (N.of_uint u))
  | None => None
  end.

(** Reading a rendered amount back: an optional minus sign, a decimal
    numeral, a point and exactly two decimal digits, and nothing else. The
    result is the sign and the number of hundredths. *)
Definition readHundredths (r : string) : option (bool * Z) :=
  let '(neg, r) :=
    match r with
    | String c t => if Ascii.eqb c "-" then (true, t) else (false, r)
    | EmptyString => (false, r)
    end in
  match splitPoint r with
  | Some (ip, String c1 (String c2 EmptyString)) =>
    match readNumeral ip, digitValue c1, digitValue c2 with
    | Some n, Some d1, Some d2 => Some (neg, 100 * n + 10 * d1 + d2)
    | _, _, _ => None
    end
  | _ => None
  end.

(** The [float64] nearest to [n / d], for integers that are themselves
    [float64] values: their correctly rounded quotient. *)
Definition float64Of (n d : Z) : float64 :=
  SFdiv 53 1024 (binary_normalize 53 1024 n 0 false) (binary_normalize 53 1024 d 0 false).

Fixpoint allDigits (s : string) : bool :=
  match s with
  | EmptyString => true
  | String c t => fmt.isDigit c && allDigits t
  end.

(** ** Sample data *)

Definition acme : Config :=
  {| Domain := "acme.com"; ApiKey := "key-0"; FromName := "Acme"; FromEmail := "sales" |}.

Definition acmeVars : gmap string string :=
  <["MAILGUN_DOMAIN" := "acme.com"]>
    (<["MAILGUN_API_KEY" := "key-0"]>
      (<["MAILGUN_FROM_NAME" := "Acme"]>
        (<["MAILGUN_FROM_EMAIL" := "sales"]> ∅))).

Definition widget : ProductEmail :=
  {| ProductName := "Widget"; Price := float64Of 999 100;
     Description := "A widget"; RecipientEmail := "a@b.com" |}.

Definition quoted (s : string) : string :=
  String (ascii_of_N 34) s +:+ String (ascii_of_N 34) EmptyString.

(** The body of the end-to-end scenario. *)
Definition widgetBody : string :=
  "{" +:+ quoted "product_name" +:+ ":" +:+ quoted "Widget" +:+
  "," +:+ quoted "price" +:+ ":9.99" +:+
  "," +:+ quoted "description" +:+ ":" +:+ quoted "A widget" +:+
  "," +:+ quoted "email" +:+ ":" +:+ quoted "a@b.com" +:+ "}".

(** A binder that knows the body of the scenario and rejects the rest. *)
Definition widgetBind (body : string) : string + ProductEmail :=
  if String.eqb body widgetBody then inr widget
  else inl "invalid character".

(** A provider that queues every message. *)
Definition queuedProvider : mailgun.Provider := fun _ _ _ =>
  {| mailgun.mes := "queued"; mailgun.id := "msg-1"; mailgun.err := None |}.

(** A provider that refuses every message. *)
Definition refusingProvider : mailgun.Provider := fun _ _ _ =>
  {| mailgun.mes := EmptyString; mailgun.id := EmptyString; mailgun.err := Some "401 Forbidden" |}.

Definition widgetRequest : http.Request :=
  {| http.Method := "POST"; http.Path := "/send-product"; http.Body := widgetBody;
     http.Ctx := context.Background;
     http.RedirectTo := "/send-product/" |}.

Definition brokenRequest : http.Request :=
  {| http.Method := "POST"; http.Path := "/send-product"; http.Body := "{";
     http.Ctx := context.Background;
     http.RedirectTo := "/send-product/" |}.

Definition preflightRequest : http.Request :=
  {| http.Method := "OPTIONS"; http.Path := "/send-product"; http.Body := EmptyString;
     http.Ctx := context.Background;
     http.RedirectTo := "/send-product/" |}.

Definition slashRequest : http.Request :=
  {| http.Method := "POST"; http.Path := "/send-product/"; http.Body := widgetBody;
     http.Ctx := context.Background;
     http.RedirectTo := "/send-product" |}.

Definition quiet : World := {| outbox := [] |}.

(** ** Whole and small prices *)

(** The magnitude of the finite [x] is the integer [k]. *)
Definition wholeValue (x : float64) (k : Z) : Prop :=
  match x with
  | S754_zero _ => k = 0
  | S754_finite _ m e =>
    if 0 <=? e then k = Z.pos m * 2 ^ e else Z.pos m = k * 2 ^ (- e)
  | _ => False
  end.

(** The sign as [%f] prints it. *)
Definition signText (x : float64) : string :=
  if signbit x then "-" else EmptyString.

(** The body of the e-mail around a given rendering of the price. *)
Definition bodyWithPrice (data : ProductEmail) (price : string) : string :=
  nl +:+ "Product Details:" +:+ nl +:+
  "---------------" +:+ nl +:+
  "Name: " +:+ ProductName data +:+ nl +:+
  "Price: $" +:+ price +:+ nl +:+
  "Description: " +:+ Description data +:+ nl.

(** The four header names of the CORS middleware. *)
Definition corsNames : list string :=
  [ "Access-Control-Allow-Origin"; "Access-Control-Allow-Methods";
    "Access-Control-Allow-Headers"; "Access-Control-Max-Age" ].

Definition lostRequest : http.Request :=
  {| http.Method := "GET"; http.Path := "/send-product"; http.Body := EmptyString;
     http.Ctx := context.Background;
     http.RedirectTo := "/send-product/" |}.

(** * Lemmas *)

(** ** Evaluating the formats *)

Lemma Sprintf_sender (name email domain : string) :
  fmt.Sprintf "%s <%s@%s>" name email domain =
  name +:+ " <" +:+ email +:+ "@" +:+ domain +:+ ">".
Proof. reflexivity. Qed.

(** ** Evaluating the writer *)

Lemma corsHeader_no_content_type : corsHeader !! "Content-Type" = None.
Proof. vm_compute. reflexivity. Qed.

Lemma render_json (st code : Z) (obj : gin.H) :
  0 < code -> gin.bodyAllowedForStatus code = true ->
  gin.response
    (gin.WriteHeaderNow
       (gin.Write (gin.JSONBytes obj)
          (gin.writeContentType gin.jsonContentType
             (gin.WriteHeader code (corsWriter st))))) =
  {| gin.StatusCode := code;
     gin.Header := <["Content-Type" := ["application/json; charset=utf-8"]]> corsHeader;
     gin.Body := [gin.JSONBytes obj] |}.
Proof.
  intros Hpos _. unfold gin.WriteHeader, corsWriter. simpl.
  assert (Hc : (0 <? code) = true) by (apply Z.ltb_lt; exact Hpos). rewrite Hc. simpl.
  destruct (st =? code) eqn:E; simpl.
  - apply Z.eqb_eq in E. subst st.
    unfold gin.writeContentType. simpl. rewrite corsHeader_no_content_type.
    reflexivity.
  - unfold gin.writeContentType. simpl. rewrite corsHeader_no_content_type.
    reflexivity.
Qed.

(** [c.JSON] after [c.AbortWithStatus] with the same code: the header has
    gone out already, without a content type. *)
Lemma render_json_aborted (st code : Z) (obj : gin.H) :
  0 < code ->
  gin.response
    (gin.WriteHeaderNow
       (gin.Write (gin.JSONBytes obj)
          (gin.writeContentType gin.jsonContentType
             (gin.WriteHeader code
                (gin.WriteHeaderNow (gin.WriteHeader code (corsWriter st))))))) =
  {| gin.StatusCode := code;
     gin.Header := corsHeader;
     gin.Body := [gin.JSONBytes obj] |}.
Proof.
  intros Hpos. unfold gin.WriteHeader at 2. unfold corsWriter. simpl.
  assert (Hc : (0 <? code) = true) by (apply Z.ltb_lt; exact Hpos). rewrite Hc. simpl.
  destruct (st =? code) eqn:E; simpl.
  - apply Z.eqb_eq in E. subst st.
    unfold gin.WriteHeader. simpl. rewrite Hc, Z.eqb_refl. simpl.
    unfold gin.writeContentType. simpl. rewrite corsHeader_no_content_type.
    reflexivity.
  - unfold gin.WriteHeader. simpl. rewrite Hc, Z.eqb_refl. simpl.
    unfold gin.writeContentType. simpl. rewrite corsHeader_no_content_type.
    reflexivity.
Qed.

(** ** The handler chain never runs out of fuel *)

Lemma loop_done fuel handlers c w :
  Z.of_nat (length handlers) <= gin.index c ->
  gin.loop fuel handlers c w = (c, w).
Proof.
  intros H. destruct fuel; simpl; [reflexivity|].
  destruct (gin.index c <? Z.of_nat (length handlers)) eqn:E; [|reflexivity].
  apply Z.ltb_lt in E. lia.
Qed.

Section ProgramFacts.

Variable provider : mailgun.Provider.
Variable bindProductEmail : string -> string + ProductEmail.

#[local] Arguments String.eqb : simpl nomatch.

Lemma SendProductEmail_eq s ctx data w :
  SendProductEmail provider s ctx data w =
  (let r := provider (mg s) ctx (productMessage s data) in
   (mailgun.mes r, mailgun.id r, mailgun.err r),
   {| outbox := outbox w ++ [(mg s, ctx, productMessage s data)] |}).
Proof. reflexivity. Qed.

Lemma main_fatal msg env :
  main provider bindProductEmail (inl msg) env = inl "Error loading .env file".
Proof. reflexivity. Qed.

Lemma main_router dotenv env e :
  main provider bindProductEmail dotenv env = inr e ->
  exists vars, dotenv = inr vars /\ e = router provider bindProductEmail vars env.
Proof.
  destruct dotenv as [msg|vars]; simpl; [discriminate|].
  intros [= <-]. exists vars. split; reflexivity.
Qed.

Ltac enter_route req Hm Hp :=
  let m := fresh "m" in let pa := fresh "pa" in
  let b := fresh "b" in let cx := fresh "cx" in
  destruct req as [m pa b cx rto]; simpl in *; subst m pa;
  unfold gin.ServeHTTP, gin.handleHTTPRequest, router, main; simpl;
  unfold gin.Next; simpl;
  unfold gin.Logger, gin.Recovery; simpl; unfold corsMiddleware at 1; simpl;
  unfold SendProductHandler at 1; unfold gin.BindJSON; simpl.

(** A body that binds and a provider that accepts: 200. *)
Lemma serve_ok vars env req w p :
  http.Method req = "POST" -> http.Path req = "/send-product" ->
  bindProductEmail (http.Body req) = inr p ->
  let s := NewEmailService (loadedConfig vars env) in
  let r := provider (mg s) (sendContext req) (productMessage s p) in
  mailgun.err r = None ->
  gin.ServeHTTP (router provider bindProductEmail vars env) req w =
  ({| gin.StatusCode := 200;
      gin.Header := <["Content-Type" := ["application/json; charset=utf-8"]]> corsHeader;
      gin.Body := [gin.JSONBytes (<[ "message" := "Email sent successfully" ]>
                     (<[ "id" := mailgun.id r ]>
                      (<[ "response" := mailgun.mes r ]> ∅)))] |},
   {| outbox := outbox w ++ [(mg s, sendContext req, productMessage s p)] |}).
Proof.
  intros Hm Hp Hb s r Hr. subst r s. unfold sendContext, productMessage, loadedConfig in *.
  enter_route req Hm Hp. rewrite Hb. simpl. rewrite Sprintf_sender, Hr. simpl.
  apply (f_equal2 pair); [exact (render_json 200 200 _ eq_refl eq_refl) | reflexivity].
Qed.

(** A body that binds and a provider that reports an error: 500. *)
Lemma serve_failed vars env req w p x :
  http.Method req = "POST" -> http.Path req = "/send-product" ->
  bindProductEmail (http.Body req) = inr p ->
  let s := NewEmailService (loadedConfig vars env) in
  let r := provider (mg s) (sendContext req) (productMessage s p) in
  mailgun.err r = Some x ->
  gin.ServeHTTP (router provider bindProductEmail vars env) req w =
  ({| gin.StatusCode := 500;
      gin.Header := <["Content-Type" := ["application/json; charset=utf-8"]]> corsHeader;
      gin.Body := [gin.JSONBytes {[ "error" := "Failed to send email" ]}] |},
   {| outbox := outbox w ++ [(mg s, sendContext req, productMessage s p)] |}).
Proof.
  intros Hm Hp Hb s r Hr. subst r s. unfold sendContext, productMessage, loadedConfig in *.
  enter_route req Hm Hp. rewrite Hb. simpl. rewrite Sprintf_sender, Hr. simpl.
  apply (f_equal2 pair); [exact (render_json 200 500 _ eq_refl eq_refl) | reflexivity].
Qed.

(** A body that does not bind: 400, written before the content type is set. *)
Lemma serve_invalid vars env req w e :
  http.Method req = "POST" -> http.Path req = "/send-product" ->
  bindProductEmail (http.Body req) = inl e ->
  gin.ServeHTTP (router provider bindProductEmail vars env) req w =
  ({| gin.StatusCode := 400;
      gin.Header := corsHeader;
      gin.Body := [gin.JSONBytes {[ "error" := "Invalid request body" ]}] |},
   w).
Proof.
  intros Hm Hp Hb. enter_route req Hm Hp. rewrite Hb. simpl.
  apply (f_equal2 pair); [exact (render_json_aborted 200 400 _ eq_refl) | reflexivity].
Qed.

(** A preflight request, whatever its path: 204 from the middleware. *)
Lemma serve_options vars env req w :
  http.Method req = "OPTIONS" ->
  gin.ServeHTTP (router provider bindProductEmail vars env) req w =
  ({| gin.StatusCode := 204; gin.Header := corsHeader; gin.Body := [] |}, w).
Proof.
  intros Hm. destruct req as [m pa b cx rto]. simpl in Hm. subst m.
  unfold gin.ServeHTTP, gin.handleHTTPRequest, router, main. simpl.
  unfold gin.serveError, gin.Next. simpl.
  reflexivity.
Qed.

(** The path of the route with a slash added: the router redirects by
    itself. *)
Lemma serve_redirect vars env req w :
  http.Method req = "POST" -> http.Path req = "/send-product/" ->
  gin.ServeHTTP (router provider bindProductEmail vars env) req w =
  ({| gin.StatusCode := 307;
      gin.Header := {[ "Location" := [http.RedirectTo req] ]};
      gin.Body := [] |}, w).
Proof.
  intros Hm Hp. destruct req as [m pa b cx rto]. simpl in Hm, Hp. subst m pa.
  reflexivity.
Qed.

Lemma app_slash_ne (s : string) : String.eqb (s +:+ "/") "/send-product" = false.
Proof.
  apply String.eqb_neq. intros H.
  do 13 (destruct s as [|? s]; simpl in H; [discriminate H|];
         injection H as _ H).
  destruct s; discriminate H.
Qed.

(** Any other request: 404 through the middleware. *)
Lemma serve_not_found vars env req w :
  http.Method req <> "OPTIONS" ->
  ~ (http.Method req = "POST" /\
     (http.Path req = "/send-product" \/ http.Path req = "/send-product/")) ->
  gin.ServeHTTP (router provider bindProductEmail vars env) req w =
  ({| gin.StatusCode := 404;
      gin.Header := <["Content-Type" := ["text/plain"]]> corsHeader;
      gin.Body := [gin.Bytes "404 page not found"] |}, w).
Proof.
  intros Hopt Hroute. destruct req as [m pa b cx rto]. simpl in Hopt, Hroute.
  assert (Eopt : String.eqb m "OPTIONS" = false) by (apply String.eqb_neq; exact Hopt).
  assert (Hserve : gin.serveError (gin.allNoRoute (router provider bindProductEmail vars env)) 404 gin.default404Body
            {| gin.Request := {| http.Method := m; http.Path := pa; http.Body := b;
                                 http.Ctx := cx; http.RedirectTo := rto |};
               gin.Writer := gin.newWriter; gin.index := -1; gin.Errors := [] |} w =
          ({| gin.Request := {| http.Method := m; http.Path := pa; http.Body := b;
                                 http.Ctx := cx; http.RedirectTo := rto |};
              gin.Writer := gin.Write (gin.Bytes "404 page not found")
                   {| gin.header := <["Content-Type" := ["text/plain"]]> corsHeader;
                      gin.status := 404; gin.written := false; gin.wire := None;
                      gin.body := [] |};
              gin.index := 6; gin.Errors := [] |}, w)).
  { unfold gin.serveError, gin.Next, router, main. simpl.
    unfold gin.Logger, gin.Recovery. simpl. unfold corsMiddleware at 1. simpl.
    rewrite Eopt. simpl. reflexivity. }
  unfold gin.ServeHTTP, gin.handleHTTPRequest.
  change (http.Method (gin.Request _)) with m. change (http.Path (gin.Request _)) with pa.
  cbv zeta.
  destruct (existsb _ (gin.trees (router provider bindProductEmail vars env))) eqn:Etree.
  - unfold router, main in Etree. simpl in Etree. rewrite orb_false_r in Etree.
    apply String.eqb_eq in Etree. subst m.
    assert (Ep1 : String.eqb "/send-product" pa = false).
    { apply String.eqb_neq. intros <-. apply Hroute. split; [reflexivity|left; reflexivity]. }
    assert (Ep2 : String.eqb "/send-product/" pa = false).
    { apply String.eqb_neq. intros <-. apply Hroute. split; [reflexivity|right; reflexivity]. }
    assert (Eg : gin.getValue (gin.trees (router provider bindProductEmail vars env)) "POST" pa = None).
    { unfold router, main. simpl. rewrite Ep1. reflexivity. }
    assert (Et : gin.tsr (gin.trees (router provider bindProductEmail vars env)) "POST" pa = false).
    { unfold router, main, gin.tsr. simpl.
      change ("/send-product" +:+ "/") with "/send-product/".
      rewrite Ep2, app_slash_ne. reflexivity. }
    rewrite Eg, Et, andb_false_r. simpl andb. cbv iota.
    rewrite Hserve. reflexivity.
  - rewrite Hserve. reflexivity.
Qed.

End ProgramFacts.


(** ** The rendering of the price *)

Lemma roundHalfEven_nearest (num den : Z) :
  0 < den ->
  Z.abs (2 * num - 2 * strconv.roundHalfEven num den * den) <= den.
Proof.
  intros Hden. unfold strconv.roundHalfEven.
  pose proof (Z.div_mod num den ltac:(lia)) as Hdm.
  pose proof (Z.mod_pos_bound num den Hden) as Hr.
  cbv zeta. revert Hdm Hr.
  generalize (num / den) (num mod den). intros q r Hdm Hr. subst num.
  destruct (Z.compare_spec (2 * r) den) as [E|E|E].
  - destruct (Z.even q).
    + replace (2 * (den * q + r) - 2 * q * den) with (2 * r) by ring. lia.
    + replace (2 * (den * q + r) - 2 * (q + 1) * den) with (2 * r - 2 * den) by ring. lia.
  - replace (2 * (den * q + r) - 2 * q * den) with (2 * r) by ring. lia.
  - replace (2 * (den * q + r) - 2 * (q + 1) * den) with (2 * r - 2 * den) by ring. lia.
Qed.

Lemma roundHalfEven_nonneg (num den : Z) :
  0 <= num -> 0 < den -> 0 <= strconv.roundHalfEven num den.
Proof.
  intros Hn Hd. unfold strconv.roundHalfEven.
  pose proof (Z.div_pos num den Hn Hd).
  destruct (2 * (num mod den) ?= den); [destruct (Z.even _)| |]; lia.
Qed.

Lemma scaled_nonneg m e prec : 0 <= strconv.scaled m e prec.
Proof.
  unfold strconv.scaled. destruct (0 <=? e) eqn:E.
  - apply Z.leb_le in E.
    assert (0 < 2 ^ e) by (apply Z.pow_pos_nonneg; lia).
    assert (0 < 10 ^ Z.of_nat prec) by (apply Z.pow_pos_nonneg; lia). nia.
  - apply Z.leb_gt in E.
    assert (0 < 10 ^ Z.of_nat prec) by (apply Z.pow_pos_nonneg; lia).
    apply roundHalfEven_nonneg; [nia|apply Z.pow_pos_nonneg; lia].
Qed.

Lemma scaled_nearest s m e :
  nearestHundredths (S754_finite s m e) (strconv.scaled m e 2).
Proof.
  unfold nearestHundredths, magnitude, strconv.scaled.
  change (10 ^ Z.of_nat 2) with 100.
  apply Qabs_Qle_condition.
  destruct (0 <=? e) eqn:E.
  - unfold Qle, Qminus, Qplus, Qmult, Qopp, inject_Z; simpl. lia.
  - apply Z.leb_gt in E.
    pose proof (roundHalfEven_nearest (Z.pos m * 100) (2 ^ (- e))
                  ltac:(apply Z.pow_pos_nonneg; lia)) as Hn.
    assert (Hd : Z.pos (2 ^ Z.to_pos (- e)) = 2 ^ (- e)).
    { rewrite Pos2Z.inj_pow, Z2Pos.id by lia. reflexivity. }
    set (n := strconv.roundHalfEven (Z.pos m * 100) (2 ^ (- e))) in *.
    unfold Qle, Qminus, Qplus, Qmult, Qopp, inject_Z; simpl.
    rewrite ?Pos2Z.inj_mul, ?Hd. lia.
Qed.

Lemma allDigits_string_of_uint (d : Decimal.uint) :
  allDigits (NilEmpty.string_of_uint d) = true.
Proof. induction d; simpl; auto. Qed.

Lemma decimal_allDigits (n : Z) : allDigits (strconv.decimal n) = true.
Proof.
  unfold strconv.decimal, NilZero.string_of_uint.
  destruct (N.to_uint (Z.to_N n)); try reflexivity;
    apply (allDigits_string_of_uint (_ _)).
Qed.

Lemma decimal_nonempty (n : Z) : strconv.decimal n <> EmptyString.
Proof.
  unfold strconv.decimal, NilZero.string_of_uint.
  destruct (N.to_uint (Z.to_N n)); simpl; discriminate.
Qed.

Lemma readNumeral_decimal (n : Z) : 0 <= n -> readNumeral (strconv.decimal n) = Some n.
Proof.
  intros Hn. unfold readNumeral, strconv.decimal.
  assert (Hnil : N.to_uint (Z.to_N n) <> Decimal.Nil).
  { destruct (Z.to_N n); simpl; [discriminate|].
    apply DecimalPos.Unsigned.to_uint_nonnil. }
  rewrite NilZero.usu by exact Hnil.
  rewrite DecimalN.Unsigned.of_to, Z2N.id by exact Hn. reflexivity.
Qed.

Lemma isDigit_not_point (c : ascii) : fmt.isDigit c = true -> Ascii.eqb c "." = false.
Proof.
  intros H. destruct (Ascii.eqb_spec c "."); [subst c; discriminate H|reflexivity].
Qed.

Lemma isDigit_not_minus (c : ascii) : fmt.isDigit c = true -> Ascii.eqb c "-" = false.
Proof.
  intros H. destruct (Ascii.eqb_spec c "-"); [subst c; discriminate H|reflexivity].
Qed.

Lemma splitPoint_digits (s t : string) :
  allDigits s = true -> splitPoint (s +:+ String "." t) = Some (s, t).
Proof.
  induction s as [|c s IH]; simpl; intros H; [reflexivity|].
  apply andb_true_iff in H as [Hc Hs].
  rewrite (isDigit_not_point c Hc), (IH Hs). reflexivity.
Qed.

Lemma digitValue_digit (d : Z) :
  0 <= d < 10 -> digitValue (strconv.digit d) = Some d.
Proof.
  intros Hd.
  assert (Hcases : d = 0 \/ d = 1 \/ d = 2 \/ d = 3 \/ d = 4 \/
                   d = 5 \/ d = 6 \/ d = 7 \/ d = 8 \/ d = 9) by lia.
  repeat (destruct Hcases as [-> | Hcases]; [reflexivity|]).
  subst d. reflexivity.
Qed.

(** What [fmtF] prints with two fraction digits reads back as the sign and
    the scaled integer. *)
Lemma readHundredths_fmtF (neg : bool) (n : Z) :
  0 <= n -> readHundredths (strconv.fmtF neg n 2) = Some (neg, n).
Proof.
  intros Hn. unfold strconv.fmtF. change (10 ^ Z.of_nat 2) with 100. simpl strconv.fixedDigits.
  pose proof (Z.div_pos n 100 Hn ltac:(lia)) as Hq.
  pose proof (Z.mod_pos_bound n 100 ltac:(lia)) as Hr.
  pose proof (Z.mod_pos_bound (n mod 100 / 10) 10 ltac:(lia)) as Hd1.
  pose proof (Z.mod_pos_bound (n mod 100) 10 ltac:(lia)) as Hd2.
  assert (Hread : forall r,
            r = strconv.decimal (n / 100) +:+
                String "." (String (strconv.digit (n mod 100 / 10 mod 10))
                              (String (strconv.digit (n mod 100 mod 10)) EmptyString)) ->
            match splitPoint r with
            | Some (ip, String c1 (String c2 EmptyString)) =>
              match readNumeral ip, digitValue c1, digitValue c2 with
              | Some k, Some d1, Some d2 => Some (neg, 100 * k + 10 * d1 + d2)
              | _, _, _ => None
              end
            | _ => None
            end = Some (neg, n)).
  { intros r ->. rewrite splitPoint_digits by apply decimal_allDigits.
    rewrite readNumeral_decimal by exact Hq.
    rewrite !digitValue_digit by assumption.
    f_equal. f_equal.
    pose proof (Z.div_mod n 100 ltac:(lia)).
    pose proof (Z.div_mod (n mod 100) 10 ltac:(lia)).
    assert (n mod 100 / 10 mod 10 = n mod 100 / 10).
    { apply Z.mod_small. split; [apply Z.div_pos; lia|].
      apply Z.div_lt_upper_bound; lia. }
    lia. }
  destruct neg.
  - simpl. apply Hread. reflexivity.
  - change (EmptyString +:+ ?x) with x.
    pose proof (decimal_allDigits (n / 100)) as Hall.
    pose proof (decimal_nonempty (n / 100)) as Hne.
    unfold readHundredths.
    destruct (strconv.decimal (n / 100)) as [|c t] eqn:Hdec; [congruence|].
    simpl in Hall. apply andb_true_iff in Hall as [Hc _].
    simpl. rewrite (isDigit_not_minus c Hc).
    rewrite <- Hdec in *. apply (Hread _). rewrite Hdec. reflexivity.
Qed.

(** ** The fuel of the handler loop *)

Lemma index_incr c : gin.index (gin.incr c) = gin.index c + 1.
Proof. reflexivity. Qed.

(** Once [k] exceeds the number of handlers left, any two amounts of fuel
    from [k] on run the loop to the same result, and the loop does not move
    the context backwards. *)
Lemma loop_fuel (hs : list gin.HandlerFunc) :
  Forall regular hs ->
  Z.of_nat (length hs) <= gin.abortIndex ->
  forall (k fuel fuel' : nat) (c : gin.Context) (w : World),
    0 <= gin.index c ->
    Z.of_nat (length hs) - gin.index c < Z.of_nat k ->
    (k <= fuel)%nat -> (k <= fuel')%nat ->
    gin.loop fuel hs c w = gin.loop fuel' hs c w /\
    gin.index c <= gin.index (fst (gin.loop fuel hs c w)).
Proof.
  intros Hreg Hlen. induction k as [|k IH]; intros fuel fuel' c w Hpos Hk Hf Hf'.
  - rewrite !loop_done by lia. split; [reflexivity|simpl; lia].
  - destruct (Z_lt_le_dec (gin.index c) (Z.of_nat (length hs))) as [Hin|Hout].
    2:{ rewrite !loop_done by lia. split; [reflexivity|simpl; lia]. }
    destruct fuel as [|f]; [lia|]. destruct fuel' as [|f']; [lia|].
    simpl. apply Z.ltb_lt in Hin as Hin'. rewrite Hin'.
    destruct (hs !! Z.to_nat (gin.index c)) as [h|] eqn:Hh.
    2:{ split; [reflexivity|simpl; lia]. }
    assert (Hh' : regular h).
    { rewrite Forall_forall in Hreg. apply Hreg. eapply list_elem_of_lookup_2. exact Hh. }
    assert (Hnext : forall c' w', gin.index c <= gin.index c' ->
              gin.loop f hs (gin.incr c') w' = gin.loop f' hs (gin.incr c') w' /\
              gin.index (gin.incr c') <= gin.index (fst (gin.loop f hs (gin.incr c') w'))).
    { intros c' w' Hc'. apply IH; rewrite ?index_incr; lia. }
    destruct (Hh' (fun c0 w0 => gin.loop f hs (gin.incr c0) w0)
                  (fun c0 w0 => gin.loop f' hs (gin.incr c0) w0) c w) as [Heq Hidx].
    + lia.
    + intros c' w' Hc'. apply Hnext. exact Hc'.
    + intros c' w' Hc'. destruct (Hnext c' w' Hc') as [_ Hi].
      rewrite index_incr in Hi. lia.
    + rewrite <- Heq.
      destruct (h _ c w) as [c1 w1]. simpl in Hidx.
      destruct (Hnext c1 w1 Hidx) as [He Hi]. rewrite index_incr in Hi.
      split; [exact He|lia].
Qed.

Lemma regular_Logger : regular gin.Logger.
Proof.
  intros next next' c w _ Hagree Hmono. unfold gin.Logger.
  split; [apply Hagree; lia|apply Hmono; lia].
Qed.

Lemma regular_Recovery : regular gin.Recovery.
Proof.
  intros next next' c w _ Hagree Hmono. unfold gin.Recovery.
  split; [apply Hagree; lia|apply Hmono; lia].
Qed.

Lemma regular_corsMiddleware : regular corsMiddleware.
Proof.
  intros next next' c w Hc Hagree Hmono. unfold corsMiddleware.
  change (gin.Header_Set "Access-Control-Max-Age" "86400" _) with (withCors c).
  change (http.Method (gin.Request (withCors c))) with (http.Method (gin.Request c)).
  destruct (String.eqb (http.Method (gin.Request c)) "OPTIONS").
  - split; [reflexivity|]. simpl. unfold gin.abortIndex in *. lia.
  - split; [apply Hagree; simpl; lia|].
    apply (Hmono (withCors c) w). simpl. lia.
Qed.

Lemma index_JSON code obj c : gin.index (gin.JSON code obj c) = gin.index c.
Proof. unfold gin.JSON. destruct (gin.bodyAllowedForStatus code); reflexivity. Qed.

Lemma regular_SendProductHandler provider bindProductEmail h :
  regular (SendProductHandler provider bindProductEmail h).
Proof.
  intros next next' c w Hc _ _. split; [reflexivity|].
  unfold SendProductHandler, gin.BindJSON.
  destruct (bindProductEmail (http.Body (gin.Request c))) as [e|p].
  - cbv beta iota zeta. cbn [fst]. rewrite index_JSON. simpl.
    unfold gin.abortIndex in *. lia.
  - cbv beta iota zeta.
    destruct (SendProductEmail _ _ _ _ _) as [[[resp id] [x|]] w1];
      cbn [fst]; rewrite index_JSON; lia.
Qed.

(** [c.Next()] on a fresh context gives the result of the loop under any
    larger fuel: the fuel it starts with is never used up. *)
Lemma Next_fuel (hs : list gin.HandlerFunc) (n : nat) c w :
  Forall regular hs ->
  Z.of_nat (length hs) <= gin.abortIndex ->
  gin.index c = -1 ->
  gin.loop (S (length hs) + n) hs (gin.incr c) w = gin.Next hs c w.
Proof.
  intros Hreg Hlen Hc. unfold gin.Next.
  apply (loop_fuel hs Hreg Hlen (S (length hs))); rewrite ?index_incr; lia.
Qed.

(** The two chains of the router are made of regular handlers. *)
Lemma router_chains_regular provider bindProductEmail vars env :
  let e := router provider bindProductEmail vars env in
  Forall regular (gin.allNoRoute e) /\
  Forall (fun r => Forall regular (gin.handlers r) /\
                   Z.of_nat (length (gin.handlers r)) <= gin.abortIndex) (gin.trees e) /\
  Z.of_nat (length (gin.allNoRoute e)) <= gin.abortIndex.
Proof.
  unfold router, main. simpl.
  pose proof regular_Logger. pose proof regular_Recovery.
  pose proof regular_corsMiddleware.
  pose proof (regular_SendProductHandler provider bindProductEmail).
  split; [|split].
  - repeat (constructor; [assumption|]). constructor.
  - constructor; [|constructor]. split.
    + repeat (constructor; [solve [auto]|]). constructor.
    + simpl. unfold gin.abortIndex. lia.
  - simpl. unfold gin.abortIndex. lia.
Qed.

(** Serving a request never uses up the fuel: under any larger fuel the
    chain of the route, and the chain for unmatched requests, give the
    result [c.Next()] gives. *)
Lemma router_fuel provider bindProductEmail vars env (n : nat) c w :
  let e := router provider bindProductEmail vars env in
  gin.index c = -1 ->
  gin.loop (S (length (gin.allNoRoute e)) + n) (gin.allNoRoute e) (gin.incr c) w =
    gin.Next (gin.allNoRoute e) c w /\
  Forall (fun r => gin.loop (S (length (gin.handlers r)) + n) (gin.handlers r)
                     (gin.incr c) w = gin.Next (gin.handlers r) c w) (gin.trees e).
Proof.
  intros e Hc.
  destruct (router_chains_regular provider bindProductEmail vars env)
    as (Hno & Htrees & Hlen).
  fold e in Hno, Htrees, Hlen. split.
  - apply Next_fuel; assumption.
  - eapply Forall_impl; [exact Htrees|].
    intros r [Hreg Hl]. apply Next_fuel; assumption.
Qed.

Lemma roundHalfEven_tie (num den : Z) :
  0 < den ->
  Z.abs (2 * num - 2 * strconv.roundHalfEven num den * den) = den ->
  Z.even (strconv.roundHalfEven num den) = true.
Proof.
  intros Hden. unfold strconv.roundHalfEven.
  pose proof (Z.div_mod num den ltac:(lia)) as Hdm.
  pose proof (Z.mod_pos_bound num den Hden) as Hr.
  cbv zeta. revert Hdm Hr.
  generalize (num / den) (num mod den). intros q r Hdm Hr. subst num.
  destruct (Z.compare_spec (2 * r) den) as [E|E|E].
  - destruct (Z.even q) eqn:Hq; intros _; [exact Hq|].
    replace (q + 1) with (Z.succ q) by lia.
    rewrite Z.even_succ, <- Z.negb_even, Hq. reflexivity.
  - replace (2 * (den * q + r) - 2 * q * den) with (2 * r) by ring. lia.
  - replace (2 * (den * q + r) - 2 * (q + 1) * den) with (2 * r - 2 * den) by ring. lia.
Qed.

Lemma scaled_tie s m e :
  halfWay (S754_finite s m e) (strconv.scaled m e 2) ->
  Z.even (strconv.scaled m e 2) = true.
Proof.
  unfold halfWay, magnitude, strconv.scaled.
  change (10 ^ Z.of_nat 2) with 100.
  destruct (0 <=? e) eqn:E.
  - unfold Qeq, Qminus, Qplus, Qmult, Qopp, inject_Z; simpl. intros H.
    exfalso. revert H. generalize (Z.pos m * 2 ^ e). intros z H.
    replace (100 * z * 1 + - (z * 100) * 1) with 0 in H by ring. simpl in H. lia.
  - apply Z.leb_gt in E.
    assert (Hd : Z.pos (2 ^ Z.to_pos (- e)) = 2 ^ (- e)).
    { rewrite Pos2Z.inj_pow, Z2Pos.id by lia. reflexivity. }
    assert (Hden : 0 < 2 ^ (- e)) by (apply Z.pow_pos_nonneg; lia).
    intros H. apply roundHalfEven_tie; [exact Hden|].
    set (n := strconv.roundHalfEven (Z.pos m * 100) (2 ^ (- e))) in *.
    revert H. unfold Qeq, Qminus, Qplus, Qmult, Qopp, inject_Z; simpl.
    rewrite ?Pos2Z.inj_mul, ?Hd. lia.
Qed.

(** [%.2f] of a finite value: the text reads back as the sign and a nearest
    number of hundredths, the even one at a tie. *)
Lemma FormatFloat_f_two_decimals (x : float64) :
  isFinite x = true ->
  exists n : Z,
    readHundredths (strconv.FormatFloat_f x 2) = Some (signbit x, n) /\
    nearestHundredths x n /\
    (halfWay x n -> Z.even n = true).
Proof.
  destruct x as [s|s| |s m e]; try discriminate; intros _.
  - exists 0. split; [destruct s; reflexivity|].
    split; [unfold nearestHundredths; simpl; discriminate|].
    intros _. reflexivity.
  - exists (strconv.scaled m e 2). split; [|split].
    + simpl. apply readHundredths_fmtF, scaled_nonneg.
    + apply scaled_nearest.
    + apply scaled_tie.
Qed.

Lemma formatProductEmail_eq (s : EmailService) (data : ProductEmail) :
  formatProductEmail s data =
  nl +:+ "Product Details:" +:+ nl +:+
  "---------------" +:+ nl +:+
  "Name: " +:+ ProductName data +:+ nl +:+
  "Price: $" +:+ strconv.FormatFloat_f (Price data) 2 +:+ nl +:+
  "Description: " +:+ Description data +:+ nl.
Proof. reflexivity. Qed.

Lemma append_assoc (a b c : string) : (a +:+ b) +:+ c = a +:+ (b +:+ c).
Proof.
  induction a as [|x a IH]; [reflexivity|].
  change (String x ((a +:+ b) +:+ c) = String x (a +:+ (b +:+ c))).
  rewrite IH. reflexivity.
Qed.

Lemma template_joined (data : ProductEmail) :
  String.concat nl (templateLines data) =
  "Product Details:" +:+ nl +:+
  "---------------" +:+ nl +:+
  "Name: " +:+ ProductName data +:+ nl +:+
  "Price: $" +:+ strconv.FormatFloat_f (Price data) 2 +:+ nl +:+
  "Description: " +:+ Description data.
Proof.
  unfold templateLines.
  change (String.concat nl [?a; ?b; ?c; ?d; ?e])
    with (a +:+ nl +:+ b +:+ nl +:+ c +:+ nl +:+ d +:+ nl +:+ e).
  rewrite !append_assoc. reflexivity.
Qed.

(** * The properties of the program *)

(** ** The e-mail sender *)

(** C1, as the code has it: for every product email request,
    [SendProductEmail] returns what [mg.Send] reports for the message it
    composed, in the order [mg.Send] reports it: on success the
    human-readable response text of the provider is the first component
    and the message id of the provider the second; on failure the error is
    the one [mg.Send] reported, unchanged. *)
Theorem SendProductEmail_returns_report (provider : mailgun.Provider)
    (s : EmailService) (ctx : context.Context) (data : ProductEmail) (w : World) :
  (mailgun.err (provider (mg s) ctx (productMessage s data)) = None ->
   fst (SendProductEmail provider s ctx data w) =
     (mailgun.mes (provider (mg s) ctx (productMessage s data)),
      mailgun.id (provider (mg s) ctx (productMessage s data)),
      None)) /\
  (forall x : string,
     mailgun.err (provider (mg s) ctx (productMessage s data)) = Some x ->
     snd (fst (SendProductEmail provider s ctx data w)) = Some x).
Proof.
  rewrite SendProductEmail_eq. cbv zeta. cbn [fst snd].
  split.
  - intros Hok. rewrite Hok. reflexivity.
  - intros x Hx. exact Hx.
Qed.

Lemma SendProductEmail_returns_report_witness :
  mailgun.err (queuedProvider (mg (NewEmailService acme)) context.Background
                 (productMessage (NewEmailService acme) widget)) = None /\
  fst (SendProductEmail queuedProvider (NewEmailService acme)
         context.Background widget quiet) = ("queued", "msg-1", None).
Proof.
  split; [reflexivity|].
  exact (proj1 (SendProductEmail_returns_report queuedProvider (NewEmailService acme)
                  context.Background widget quiet) eq_refl).
Defined.

(** C1, as the specification words it, fails: with a provider that reports
    the id [msg-1] and the text [queued], the first component of the result
    is the text and not the id. *)
Lemma SendProductEmail_id_is_not_first :
  fst (SendProductEmail queuedProvider (NewEmailService acme)
         context.Background widget quiet) = ("queued", "msg-1", None) /\
  fst (SendProductEmail queuedProvider (NewEmailService acme)
         context.Background widget quiet) <>
    (mailgun.id (queuedProvider (mg (NewEmailService acme)) context.Background
                   (productMessage (NewEmailService acme) widget)),
     mailgun.mes (queuedProvider (mg (NewEmailService acme)) context.Background
                    (productMessage (NewEmailService acme) widget)),
     None).
Proof.
  split; [reflexivity|]. intros H. discriminate H.
Qed.

(** C8: the sender address of the message handed to [mg.Send] is
    ["{from_name} <{from_email}@{domain}>"]; for Acme, sales and acme.com it
    is ["Acme <sales@acme.com>"]. *)
Theorem sender_address (provider : mailgun.Provider)
    (s : EmailService) (ctx : context.Context) (data : ProductEmail) (w : World) :
  senders (snd (SendProductEmail provider s ctx data w)) =
    (senders w ++
     [FromName (config s) +:+ " <" +:+ FromEmail (config s) +:+ "@" +:+
      Domain (config s) +:+ ">"])%list /\
  (forall key : string,
     senders (snd (SendProductEmail provider
                     (NewEmailService {| Domain := "acme.com"; ApiKey := key;
                                         FromName := "Acme"; FromEmail := "sales" |})
                     ctx data quiet)) =
     ["Acme <sales@acme.com>"]).
Proof.
  split.
  - unfold senders, SendProductEmail, mailgun_Send. simpl outbox.
    rewrite map_app. reflexivity.
  - intros key. reflexivity.
Qed.

(** C7, as the code has it: the body is a line break followed by the five
    lines of the template, each ended by a line break. *)
Theorem email_body_template (s : EmailService) (data : ProductEmail) :
  formatProductEmail s data = nl +:+ String.concat nl (templateLines data) +:+ nl.
Proof.
  rewrite formatProductEmail_eq, template_joined, !append_assoc. reflexivity.
Qed.

(** C7, as the specification words it, fails: the body does not start with
    the first line of the template but with a line break, so it is neither
    the five lines joined by line breaks nor those lines each ended by one. *)
Lemma email_body_starts_with_line_break :
  String.get 0 (formatProductEmail (NewEmailService acme) widget) = Some (ascii_of_N 10) /\
  formatProductEmail (NewEmailService acme) widget <>
    String.concat nl (templateLines widget) /\
  formatProductEmail (NewEmailService acme) widget <>
    String.concat nl (templateLines widget) +:+ nl.
Proof.
  split; [reflexivity|]. split; intros H; discriminate H.
Qed.

(** C6, as the code has it: for every finite price the body holds, after
    ["Price: $"], a text that reads as a sign, a decimal numeral, a point
    and exactly two decimal digits, and whose value is a multiple of 0.01
    nearest to the price, the even one when the price lies half way; 9.1 is
    rendered as [9.10] and 19.999 as [20.00]. *)
Theorem price_two_decimals (s : EmailService) (data : ProductEmail) :
  isFinite (Price data) = true ->
  exists (r : string) (n : Z),
    formatProductEmail s data =
      nl +:+ "Product Details:" +:+ nl +:+
      "---------------" +:+ nl +:+
      "Name: " +:+ ProductName data +:+ nl +:+
      "Price: $" +:+ r +:+ nl +:+
      "Description: " +:+ Description data +:+ nl /\
    readHundredths r = Some (signbit (Price data), n) /\
    nearestHundredths (Price data) n /\
    (halfWay (Price data) n -> Z.even n = true) /\
    (Price data = float64Of 91 10 -> r = "9.10") /\
    (Price data = float64Of 19999 1000 -> r = "20.00").
Proof.
  intros Hfin.
  destruct (FormatFloat_f_two_decimals (Price data) Hfin) as (n & Hread & Hnear & Htie).
  exists (strconv.FormatFloat_f (Price data) 2), n.
  split; [apply formatProductEmail_eq|].
  split; [exact Hread|]. split; [exact Hnear|]. split; [exact Htie|].
  split; intros ->; vm_compute; reflexivity.
Qed.

Lemma price_two_decimals_witness :
  isFinite (Price widget) = true /\
  exists (r : string) (n : Z),
    formatProductEmail (NewEmailService acme) widget =
      nl +:+ "Product Details:" +:+ nl +:+
      "---------------" +:+ nl +:+
      "Name: " +:+ ProductName widget +:+ nl +:+
      "Price: $" +:+ r +:+ nl +:+
      "Description: " +:+ Description widget +:+ nl /\
    readHundredths r = Some (signbit (Price widget), n) /\
    nearestHundredths (Price widget) n /\
    (halfWay (Price widget) n -> Z.even n = true) /\
    (Price widget = float64Of 91 10 -> r = "9.10") /\
    (Price widget = float64Of 19999 1000 -> r = "20.00").
Proof.
  split; [reflexivity|].
  apply (price_two_decimals (NewEmailService acme) widget). reflexivity.
Defined.

(** C6, as the specification words it, fails: a [float64] that is not a
    number is rendered as [NaN], which has no decimal digits; and a price
    half way between two hundredths, such as 0.125, goes to the even
    neighbour [0.12], not up. *)
Lemma price_not_a_number_has_no_decimals :
  formatProductEmail (NewEmailService acme)
    {| ProductName := "Widget"; Price := S754_nan;
       Description := "A widget"; RecipientEmail := "a@b.com" |} =
    nl +:+ "Product Details:" +:+ nl +:+
    "---------------" +:+ nl +:+
    "Name: Widget" +:+ nl +:+
    "Price: $NaN" +:+ nl +:+
    "Description: A widget" +:+ nl /\
  readHundredths "NaN" = None /\
  strconv.FormatFloat_f (S754_infinity false) 2 = "+Inf" /\
  strconv.FormatFloat_f (float64Of 1 8) 2 = "0.12".
Proof.
  repeat split; vm_compute; reflexivity.
Qed.

(** C10: two requests with the same product name, price and description
    give the same body whatever their recipients; the subject is the
    constant ["Product Information"], the sender does not depend on the
    request, and the recipient of a request is the one address the message
    is addressed to. *)
Theorem body_ignores_recipient (provider : mailgun.Provider)
    (s : EmailService) (ctx : context.Context) (d1 d2 : ProductEmail) (w : World) :
  ProductName d1 = ProductName d2 ->
  Price d1 = Price d2 ->
  Description d1 = Description d2 ->
  formatProductEmail s d1 = formatProductEmail s d2 /\
  exists m1 m2 : mailgun.Message,
    outbox (snd (SendProductEmail provider s ctx d1 w)) = (outbox w ++ [(mg s, ctx, m1)])%list /\
    outbox (snd (SendProductEmail provider s ctx d2 w)) = (outbox w ++ [(mg s, ctx, m2)])%list /\
    mailgun.text m1 = formatProductEmail s d1 /\
    mailgun.text m2 = mailgun.text m1 /\
    mailgun.subject m1 = "Product Information" /\
    mailgun.subject m2 = "Product Information" /\
    mailgun.from m2 = mailgun.from m1 /\
    mailgun.to m1 = [RecipientEmail d1] /\
    mailgun.to m2 = [RecipientEmail d2].
Proof.
  intros Hn Hp Hd.
  assert (Hbody : formatProductEmail s d1 = formatProductEmail s d2).
  { rewrite !formatProductEmail_eq, Hn, Hp, Hd. reflexivity. }
  split; [exact Hbody|].
  exists (productMessage s d1), (productMessage s d2).
  repeat split. simpl. symmetry. exact Hbody.
Qed.

Lemma body_ignores_recipient_witness :
  ProductName widget = "Widget" /\
  Price widget = float64Of 999 100 /\
  Description widget = "A widget" /\
  formatProductEmail (NewEmailService acme) widget =
  formatProductEmail (NewEmailService acme)
    {| ProductName := "Widget"; Price := float64Of 999 100;
       Description := "A widget"; RecipientEmail := "c@d.org" |}.
Proof.
  split; [reflexivity|]. split; [reflexivity|]. split; [reflexivity|].
  exact (proj1 (body_ignores_recipient queuedProvider (NewEmailService acme)
                  context.Background widget
                  {| ProductName := "Widget"; Price := float64Of 999 100;
                     Description := "A widget"; RecipientEmail := "c@d.org" |}
                  quiet eq_refl eq_refl eq_refl)).
Defined.
(** ** The HTTP handler *)

(** C2: for a request to the route whose body binds, the handler makes one
    call of [mg.Send], and when the call reports no error the
    response is 200 with the JSON document whose [message] is
    ["Email sent successfully"], whose [id] is the reported message id and
    whose [response] is the reported text. For the body of the scenario and
    a provider reporting [msg-1] and [queued] the document is
    [{"message":"Email sent successfully","id":"msg-1","response":"queued"}]. *)
Theorem accepted_request_gets_200 (provider : mailgun.Provider)
    (bindProductEmail : string -> string + ProductEmail)
    (dotenv : string + gmap string string) (env : gmap string string)
    (e : gin.Engine) (req : http.Request) (w : World) (p : ProductEmail) :
  main provider bindProductEmail dotenv env = inr e ->
  http.Method req = "POST" ->
  http.Path req = "/send-product" ->
  bindProductEmail (http.Body req) = inr p ->
  exists (mgc : mailgun.MailgunImpl) (ctx : context.Context) (m : mailgun.Message),
    outbox (snd (gin.ServeHTTP e req w)) = (outbox w ++ [(mgc, ctx, m)])%list /\
    (mailgun.err (provider mgc ctx m) = None ->
     gin.StatusCode (fst (gin.ServeHTTP e req w)) = 200 /\
     gin.Body (fst (gin.ServeHTTP e req w)) =
       [gin.JSONBytes (<["message" := "Email sent successfully"]>
                        (<["id" := mailgun.id (provider mgc ctx m)]>
                          (<["response" := mailgun.mes (provider mgc ctx m)]> ∅)))]) /\
    (http.Body req = widgetBody ->
     provider mgc ctx m =
       {| mailgun.mes := "queued"; mailgun.id := "msg-1"; mailgun.err := None |} ->
     gin.StatusCode (fst (gin.ServeHTTP e req w)) = 200 /\
     gin.Body (fst (gin.ServeHTTP e req w)) =
       [gin.JSONBytes (<["message" := "Email sent successfully"]>
                        (<["id" := "msg-1"]> (<["response" := "queued"]> ∅)))]).
Proof.
  intros Hmain Hm Hp Hb.
  destruct (main_router provider bindProductEmail dotenv env e Hmain) as (vars & -> & ->).
  set (s := NewEmailService (loadedConfig vars env)).
  exists (mg s), (sendContext req), (productMessage s p).
  destruct (mailgun.err (provider (mg s) (sendContext req) (productMessage s p)))
    as [x|] eqn:Herr.
  - rewrite (serve_failed provider bindProductEmail vars env req w p x Hm Hp Hb Herr).
    split; [reflexivity|]. split; [discriminate|].
    intros _ Hq. fold s in Herr. rewrite Hq in Herr. discriminate Herr.
  - rewrite (serve_ok provider bindProductEmail vars env req w p Hm Hp Hb Herr).
    split; [reflexivity|]. split.
    + intros _. split; reflexivity.
    + intros _ Hq. fold s. rewrite Hq. split; reflexivity.
Qed.

Lemma accepted_request_gets_200_witness :
  main queuedProvider widgetBind (inr acmeVars) ∅ =
    inr (router queuedProvider widgetBind acmeVars ∅) /\
  http.Method widgetRequest = "POST" /\
  http.Path widgetRequest = "/send-product" /\
  widgetBind (http.Body widgetRequest) = inr widget /\
  gin.StatusCode (fst (gin.ServeHTTP (router queuedProvider widgetBind acmeVars ∅)
                         widgetRequest quiet)) = 200 /\
  gin.Body (fst (gin.ServeHTTP (router queuedProvider widgetBind acmeVars ∅)
                   widgetRequest quiet)) =
    [gin.JSONBytes (<["message" := "Email sent successfully"]>
                     (<["id" := "msg-1"]> (<["response" := "queued"]> ∅)))].
Proof.
  split; [reflexivity|]. split; [reflexivity|]. split; [reflexivity|].
  split; [reflexivity|].
  destruct (accepted_request_gets_200 queuedProvider widgetBind (inr acmeVars) ∅
              (router queuedProvider widgetBind acmeVars ∅) widgetRequest quiet widget
              eq_refl eq_refl eq_refl eq_refl) as (mgc & ctx & m & _ & _ & Hscenario).
  exact (Hscenario eq_refl eq_refl).
Defined.

(** C3: for a request to the route whose body does not bind, the response
    is 400 with the JSON document [{"error": "Invalid request body"}], the
    world is left as it was, [mg.Send] not having been called, and the
    outcome is the same whatever the provider. *)
Theorem invalid_body_gets_400 (provider : mailgun.Provider)
    (bindProductEmail : string -> string + ProductEmail)
    (dotenv : string + gmap string string) (env : gmap string string)
    (e : gin.Engine) (req : http.Request) (w : World) (err : string) :
  main provider bindProductEmail dotenv env = inr e ->
  http.Method req = "POST" ->
  http.Path req = "/send-product" ->
  bindProductEmail (http.Body req) = inl err ->
  gin.StatusCode (fst (gin.ServeHTTP e req w)) = 400 /\
  gin.Body (fst (gin.ServeHTTP e req w)) =
    [gin.JSONBytes {[ "error" := "Invalid request body" ]}] /\
  snd (gin.ServeHTTP e req w) = w /\
  (forall (provider' : mailgun.Provider) (e' : gin.Engine),
     main provider' bindProductEmail dotenv env = inr e' ->
     gin.ServeHTTP e' req w = gin.ServeHTTP e req w).
Proof.
  intros Hmain Hm Hp Hb.
  destruct (main_router provider bindProductEmail dotenv env e Hmain) as (vars & -> & ->).
  rewrite (serve_invalid provider bindProductEmail vars env req w err Hm Hp Hb).
  repeat split.
  intros provider' e' Hmain'.
  destruct (main_router provider' bindProductEmail _ env e' Hmain') as (vars' & [= <-] & ->).
  apply (serve_invalid provider' bindProductEmail vars env req w err Hm Hp Hb).
Qed.

Lemma invalid_body_gets_400_witness :
  main queuedProvider widgetBind (inr acmeVars) ∅ =
    inr (router queuedProvider widgetBind acmeVars ∅) /\
  http.Method brokenRequest = "POST" /\
  http.Path brokenRequest = "/send-product" /\
  widgetBind (http.Body brokenRequest) = inl "invalid character" /\
  gin.StatusCode (fst (gin.ServeHTTP (router queuedProvider widgetBind acmeVars ∅)
                         brokenRequest quiet)) = 400.
Proof.
  split; [reflexivity|]. split; [reflexivity|]. split; [reflexivity|].
  split; [reflexivity|].
  exact (proj1 (invalid_body_gets_400 queuedProvider widgetBind (inr acmeVars) ∅
                  (router queuedProvider widgetBind acmeVars ∅) brokenRequest quiet
                  "invalid character" eq_refl eq_refl eq_refl eq_refl)).
Defined.

(** C4: for a request to the route whose body binds, whatever error the
    call of [mg.Send] reports, the response is the same: 500
    with the JSON document [{"error": "Failed to send email"}], the CORS
    headers and the JSON content type; nothing of the error is in it. *)
Theorem provider_error_gets_500 (provider : mailgun.Provider)
    (bindProductEmail : string -> string + ProductEmail)
    (dotenv : string + gmap string string) (env : gmap string string)
    (e : gin.Engine) (req : http.Request) (w : World) (p : ProductEmail) :
  main provider bindProductEmail dotenv env = inr e ->
  http.Method req = "POST" ->
  http.Path req = "/send-product" ->
  bindProductEmail (http.Body req) = inr p ->
  exists (mgc : mailgun.MailgunImpl) (ctx : context.Context) (m : mailgun.Message),
    outbox (snd (gin.ServeHTTP e req w)) = (outbox w ++ [(mgc, ctx, m)])%list /\
    forall x : string,
      mailgun.err (provider mgc ctx m) = Some x ->
      fst (gin.ServeHTTP e req w) =
        {| gin.StatusCode := 500;
           gin.Header := <["Content-Type" := ["application/json; charset=utf-8"]]> corsHeader;
           gin.Body := [gin.JSONBytes {[ "error" := "Failed to send email" ]}] |}.
Proof.
  intros Hmain Hm Hp Hb.
  destruct (main_router provider bindProductEmail dotenv env e Hmain) as (vars & -> & ->).
  set (s := NewEmailService (loadedConfig vars env)).
  exists (mg s), (sendContext req), (productMessage s p).
  destruct (mailgun.err (provider (mg s) (sendContext req) (productMessage s p)))
    as [y|] eqn:Herr.
  - rewrite (serve_failed provider bindProductEmail vars env req w p y Hm Hp Hb Herr).
    split; [reflexivity|]. intros x _. reflexivity.
  - rewrite (serve_ok provider bindProductEmail vars env req w p Hm Hp Hb Herr).
    split; [reflexivity|]. intros x Hx. discriminate Hx.
Qed.

Lemma provider_error_gets_500_witness :
  main refusingProvider widgetBind (inr acmeVars) ∅ =
    inr (router refusingProvider widgetBind acmeVars ∅) /\
  http.Method widgetRequest = "POST" /\
  http.Path widgetRequest = "/send-product" /\
  widgetBind (http.Body widgetRequest) = inr widget /\
  exists (mgc : mailgun.MailgunImpl) (ctx : context.Context) (m : mailgun.Message),
    outbox (snd (gin.ServeHTTP (router refusingProvider widgetBind acmeVars ∅)
                   widgetRequest quiet)) = (outbox quiet ++ [(mgc, ctx, m)])%list /\
    forall x : string,
      mailgun.err (refusingProvider mgc ctx m) = Some x ->
      fst (gin.ServeHTTP (router refusingProvider widgetBind acmeVars ∅)
             widgetRequest quiet) =
        {| gin.StatusCode := 500;
           gin.Header := <["Content-Type" := ["application/json; charset=utf-8"]]> corsHeader;
           gin.Body := [gin.JSONBytes {[ "error" := "Failed to send email" ]}] |}.
Proof.
  split; [reflexivity|]. split; [reflexivity|]. split; [reflexivity|].
  split; [reflexivity|].
  exact (provider_error_gets_500 refusingProvider widgetBind (inr acmeVars) ∅
           (router refusingProvider widgetBind acmeVars ∅) widgetRequest quiet widget
           eq_refl eq_refl eq_refl eq_refl).
Defined.

(** ** The CORS middleware *)

(** C5, as the code has it: every response the router writes through a
    handler chain, which is every response it writes for a request handed
    to it but the redirect it gives by itself to a POST of
    [/send-product/], carries [Access-Control-Allow-Origin:
    http://localhost:5173], [Access-Control-Allow-Methods: POST, OPTIONS],
    [Access-Control-Allow-Headers: Content-Type] and
    [Access-Control-Max-Age: 86400]. *)
Theorem responses_carry_cors_headers (provider : mailgun.Provider)
    (bindProductEmail : string -> string + ProductEmail)
    (dotenv : string + gmap string string) (env : gmap string string)
    (e : gin.Engine) (req : http.Request) (w : World) :
  main provider bindProductEmail dotenv env = inr e ->
  ~ (http.Method req = "POST" /\ http.Path req = "/send-product/") ->
  gin.Header (fst (gin.ServeHTTP e req w)) !! "Access-Control-Allow-Origin" =
    Some ["http://localhost:5173"] /\
  gin.Header (fst (gin.ServeHTTP e req w)) !! "Access-Control-Allow-Methods" =
    Some ["POST, OPTIONS"] /\
  gin.Header (fst (gin.ServeHTTP e req w)) !! "Access-Control-Allow-Headers" =
    Some ["Content-Type"] /\
  gin.Header (fst (gin.ServeHTTP e req w)) !! "Access-Control-Max-Age" =
    Some ["86400"].
Proof.
  intros Hmain Hslash.
  destruct (main_router provider bindProductEmail dotenv env e Hmain) as (vars & -> & ->).
  destruct (String.eqb_spec (http.Method req) "OPTIONS") as [Hopt|Hopt].
  { rewrite (serve_options provider bindProductEmail vars env req w Hopt).
    repeat split; vm_compute; reflexivity. }
  destruct (String.eqb_spec (http.Method req) "POST") as [Hm|Hm];
    [destruct (String.eqb_spec (http.Path req) "/send-product") as [Hp|Hp]|].
  - destruct (bindProductEmail (http.Body req)) as [err|p] eqn:Hb.
    + rewrite (serve_invalid provider bindProductEmail vars env req w err Hm Hp Hb).
      repeat split; vm_compute; reflexivity.
    + destruct (mailgun.err (provider (mg (NewEmailService (loadedConfig vars env)))
                  (sendContext req)
                  (productMessage (NewEmailService (loadedConfig vars env)) p)))
        as [x|] eqn:Herr.
      * rewrite (serve_failed provider bindProductEmail vars env req w p x Hm Hp Hb Herr).
        repeat split; vm_compute; reflexivity.
      * rewrite (serve_ok provider bindProductEmail vars env req w p Hm Hp Hb Herr).
        repeat split; vm_compute; reflexivity.
  - rewrite (serve_not_found provider bindProductEmail vars env req w Hopt).
    + repeat split; vm_compute; reflexivity.
    + intros [_ [H|H]]; [exact (Hp H)|apply Hslash; split; assumption].
  - rewrite (serve_not_found provider bindProductEmail vars env req w Hopt).
    + repeat split; vm_compute; reflexivity.
    + intros [H _]. exact (Hm H).
Qed.

Lemma responses_carry_cors_headers_witness :
  main queuedProvider widgetBind (inr acmeVars) ∅ =
    inr (router queuedProvider widgetBind acmeVars ∅) /\
  ~ (http.Method widgetRequest = "POST" /\ http.Path widgetRequest = "/send-product/") /\
  gin.Header (fst (gin.ServeHTTP (router queuedProvider widgetBind acmeVars ∅)
                     widgetRequest quiet)) !! "Access-Control-Max-Age" = Some ["86400"].
Proof.
  split; [reflexivity|].
  assert (Hslash : ~ (http.Method widgetRequest = "POST" /\
                      http.Path widgetRequest = "/send-product/")).
  { intros [_ H]. discriminate H. }
  split; [exact Hslash|].
  exact (proj2 (proj2 (proj2
    (responses_carry_cors_headers queuedProvider widgetBind (inr acmeVars) ∅
       (router queuedProvider widgetBind acmeVars ∅) widgetRequest quiet
       eq_refl Hslash)))).
Defined.

(** C5, as the specification words it, fails: no response carries a header
    named [Access-Control-Allow-Max-Age], the header the middleware sets
    being [Access-Control-Max-Age]; and the redirect the router gives to a
    POST of [/send-product/] carries no CORS header at all. *)
Lemma no_allow_max_age_header :
  gin.Header (fst (gin.ServeHTTP (router queuedProvider widgetBind acmeVars ∅)
                     widgetRequest quiet)) !! "Access-Control-Allow-Max-Age" = None /\
  gin.Header (fst (gin.ServeHTTP (router queuedProvider widgetBind acmeVars ∅)
                     preflightRequest quiet)) !! "Access-Control-Allow-Max-Age" = None /\
  gin.StatusCode (fst (gin.ServeHTTP (router queuedProvider widgetBind acmeVars ∅)
                         slashRequest quiet)) = 307 /\
  gin.Header (fst (gin.ServeHTTP (router queuedProvider widgetBind acmeVars ∅)
                     slashRequest quiet)) !! "Access-Control-Allow-Origin" = None.
Proof.
  repeat split; vm_compute; reflexivity.
Qed.

(** C9: a request whose method is OPTIONS, whatever its path, gets 204 with
    an empty body and the four CORS headers, and the world is left as it
    was, [mg.Send] not having been called; the middleware ends the request
    without running the handlers that follow it, whatever they are. *)
Theorem options_short_circuits (provider : mailgun.Provider)
    (bindProductEmail : string -> string + ProductEmail)
    (dotenv : string + gmap string string) (env : gmap string string)
    (e : gin.Engine) (req : http.Request) (w : World) :
  main provider bindProductEmail dotenv env = inr e ->
  http.Method req = "OPTIONS" ->
  gin.ServeHTTP e req w =
    ({| gin.StatusCode := 204; gin.Header := corsHeader; gin.Body := [] |}, w) /\
  corsHeader !! "Access-Control-Allow-Origin" = Some ["http://localhost:5173"] /\
  corsHeader !! "Access-Control-Allow-Methods" = Some ["POST, OPTIONS"] /\
  corsHeader !! "Access-Control-Allow-Headers" = Some ["Content-Type"] /\
  corsHeader !! "Access-Control-Max-Age" = Some ["86400"] /\
  (forall (next : gin.Step) (c : gin.Context) (w0 : World),
     gin.Request c = req ->
     corsMiddleware next c w0 = (gin.AbortWithStatus 204 (withCors c), w0)) /\
  (forall (downstream downstream' : gin.HandlerFunc) (c : gin.Context) (w0 : World),
     gin.Request c = req -> gin.index c = -1 ->
     gin.Next [corsMiddleware; downstream] c w0 =
     gin.Next [corsMiddleware; downstream'] c w0 /\
     snd (gin.Next [corsMiddleware; downstream] c w0) = w0).
Proof.
  intros Hmain Hopt.
  destruct (main_router provider bindProductEmail dotenv env e Hmain) as (vars & -> & ->).
  split; [apply serve_options; exact Hopt|].
  do 4 (split; [vm_compute; reflexivity|]).
  assert (Hcors : forall (next : gin.Step) (c : gin.Context) (w0 : World),
            gin.Request c = req ->
            corsMiddleware next c w0 = (gin.AbortWithStatus 204 (withCors c), w0)).
  { intros next c w0 Hreq. unfold corsMiddleware.
    change (gin.Header_Set "Access-Control-Max-Age" "86400" _) with (withCors c).
    change (http.Method (gin.Request (withCors c))) with (http.Method (gin.Request c)).
    rewrite Hreq, Hopt. reflexivity. }
  split; [exact Hcors|].
  intros downstream downstream' c w0 Hreq Hidx.
  destruct c as [rq wr i errs]. simpl in Hreq, Hidx. subst rq i.
  unfold gin.Next. simpl.
  rewrite !Hcors by reflexivity. simpl. split; reflexivity.
Qed.

Lemma options_short_circuits_witness :
  main queuedProvider widgetBind (inr acmeVars) ∅ =
    inr (router queuedProvider widgetBind acmeVars ∅) /\
  http.Method preflightRequest = "OPTIONS" /\
  gin.ServeHTTP (router queuedProvider widgetBind acmeVars ∅) preflightRequest quiet =
    ({| gin.StatusCode := 204; gin.Header := corsHeader; gin.Body := [] |}, quiet).
Proof.
  split; [reflexivity|]. split; [reflexivity|].
  exact (proj1 (options_short_circuits queuedProvider widgetBind (inr acmeVars) ∅
                  (router queuedProvider widgetBind acmeVars ∅) preflightRequest quiet
                  eq_refl eq_refl)).
Defined.

(** * Further properties *)

(** ** The outcome of a request, case by case *)

(** Every request falls under one of six cases, each with its response and
    its effect on the world. *)
Lemma serve_cases (provider : mailgun.Provider)
    (bindProductEmail : string -> string + ProductEmail)
    (vars env : gmap string string) (req : http.Request) (w : World) :
  let s := NewEmailService (loadedConfig vars env) in
  let r := gin.ServeHTTP (router provider bindProductEmail vars env) req w in
  (http.Method req = "OPTIONS" /\
   r = ({| gin.StatusCode := 204; gin.Header := corsHeader; gin.Body := [] |}, w)) \/
  (http.Method req = "POST" /\ http.Path req = "/send-product/" /\
   r = ({| gin.StatusCode := 307; gin.Header := {[ "Location" := [http.RedirectTo req] ]};
           gin.Body := [] |}, w)) \/
  (http.Method req = "POST" /\ http.Path req = "/send-product" /\
   exists err, bindProductEmail (http.Body req) = inl err /\
   r = ({| gin.StatusCode := 400; gin.Header := corsHeader;
           gin.Body := [gin.JSONBytes {[ "error" := "Invalid request body" ]}] |}, w)) \/
  (http.Method req = "POST" /\ http.Path req = "/send-product" /\
   exists p x, bindProductEmail (http.Body req) = inr p /\
   mailgun.err (provider (mg s) (sendContext req) (productMessage s p)) = Some x /\
   r = ({| gin.StatusCode := 500;
           gin.Header := <["Content-Type" := ["application/json; charset=utf-8"]]> corsHeader;
           gin.Body := [gin.JSONBytes {[ "error" := "Failed to send email" ]}] |},
        {| outbox := outbox w ++ [(mg s, sendContext req, productMessage s p)] |})) \/
  (http.Method req = "POST" /\ http.Path req = "/send-product" /\
   exists p, bindProductEmail (http.Body req) = inr p /\
   mailgun.err (provider (mg s) (sendContext req) (productMessage s p)) = None /\
   r = ({| gin.StatusCode := 200;
           gin.Header := <["Content-Type" := ["application/json; charset=utf-8"]]> corsHeader;
           gin.Body :=
             [gin.JSONBytes
                (<["message" := "Email sent successfully"]>
                  (<["id" := mailgun.id (provider (mg s) (sendContext req)
                                           (productMessage s p))]>
                    (<["response" := mailgun.mes (provider (mg s) (sendContext req)
                                                    (productMessage s p))]> ∅)))] |},
        {| outbox := outbox w ++ [(mg s, sendContext req, productMessage s p)] |})) \/
  (http.Method req <> "OPTIONS" /\
   ~ (http.Method req = "POST" /\
      (http.Path req = "/send-product" \/ http.Path req = "/send-product/")) /\
   r = ({| gin.StatusCode := 404;
           gin.Header := <["Content-Type" := ["text/plain"]]> corsHeader;
           gin.Body := [gin.Bytes "404 page not found"] |}, w)).
Proof.
  intros s r. subst r.
  destruct (String.eqb_spec (http.Method req) "OPTIONS") as [Hopt|Hopt].
  { left. split; [exact Hopt|]. apply serve_options. exact Hopt. }
  destruct (String.eqb_spec (http.Method req) "POST") as [Hm|Hm].
  2:{ do 5 right. split; [exact Hopt|]. split; [intros [H _]; exact (Hm H)|].
      apply serve_not_found; [exact Hopt|]. intros [H _]. exact (Hm H). }
  destruct (String.eqb_spec (http.Path req) "/send-product/") as [Hs|Hs].
  { right. left. split; [exact Hm|]. split; [exact Hs|].
    apply serve_redirect; assumption. }
  destruct (String.eqb_spec (http.Path req) "/send-product") as [Hp|Hp].
  2:{ do 5 right. split; [exact Hopt|].
      split; [intros [_ [H|H]]; [exact (Hp H)|exact (Hs H)]|].
      apply serve_not_found; [exact Hopt|].
      intros [_ [H|H]]; [exact (Hp H)|exact (Hs H)]. }
  destruct (bindProductEmail (http.Body req)) as [err|p] eqn:Hb.
  { do 2 right. left. split; [exact Hm|]. split; [exact Hp|].
    exists err. split; [reflexivity|]. apply (serve_invalid _ _ _ _ _ _ err); assumption. }
  destruct (mailgun.err (provider (mg s) (sendContext req) (productMessage s p)))
    as [x|] eqn:Herr.
  - do 3 right. left. split; [exact Hm|]. split; [exact Hp|].
    exists p, x. split; [reflexivity|]. split; [exact Herr|].
    apply (serve_failed provider bindProductEmail vars env req w p x Hm Hp Hb Herr).
  - do 4 right. left. split; [exact Hm|]. split; [exact Hp|].
    exists p. split; [reflexivity|]. split; [exact Herr|].
    apply (serve_ok provider bindProductEmail vars env req w p Hm Hp Hb Herr).
Qed.

Lemma outbox_grows_ne (w : World) entry : outbox w <> (outbox w ++ [entry])%list.
Proof.
  intros H. apply (f_equal (@length _)) in H.
  rewrite length_app in H. simpl in H. lia.
Qed.

(** The world after an accepted request, whatever [mg.Send] reports. *)
Lemma accepted_world (provider : mailgun.Provider)
    (bindProductEmail : string -> string + ProductEmail)
    (vars env : gmap string string) (req : http.Request) (w : World) (p : ProductEmail) :
  http.Method req = "POST" -> http.Path req = "/send-product" ->
  bindProductEmail (http.Body req) = inr p ->
  let s := NewEmailService (loadedConfig vars env) in
  snd (gin.ServeHTTP (router provider bindProductEmail vars env) req w) =
  {| outbox := outbox w ++ [(mg s, sendContext req, productMessage s p)] |}.
Proof.
  intros Hm Hp Hb s.
  destruct (mailgun.err (provider (mg s) (sendContext req) (productMessage s p)))
    as [x|] eqn:Herr.
  - rewrite (serve_failed provider bindProductEmail vars env req w p x Hm Hp Hb Herr).
    reflexivity.
  - rewrite (serve_ok provider bindProductEmail vars env req w p Hm Hp Hb Herr).
    reflexivity.
Qed.

(** ** What is handed to the client *)

(** X1: for a request to the route whose body binds, the handler calls
    [mg.Send] once: on the client built from [MAILGUN_DOMAIN] and
    [MAILGUN_API_KEY], under the context of the request bounded by ten
    seconds, with the message that carries the sender composed from
    [MAILGUN_FROM_NAME], [MAILGUN_FROM_EMAIL] and [MAILGUN_DOMAIN], the
    subject ["Product Information"], the formatted body and the one
    recipient of the request. Whether the client then contacts the
    provider is its own affair. *)
Theorem accepted_request_calls_send (provider : mailgun.Provider)
    (bindProductEmail : string -> string + ProductEmail)
    (vars env : gmap string string) (e : gin.Engine)
    (req : http.Request) (w : World) (p : ProductEmail) :
  main provider bindProductEmail (inr vars) env = inr e ->
  http.Method req = "POST" ->
  http.Path req = "/send-product" ->
  bindProductEmail (http.Body req) = inr p ->
  outbox (snd (gin.ServeHTTP e req w)) =
    (outbox w ++
     [(mailgun.NewMailgun (Getenv (env ∪ vars) "MAILGUN_DOMAIN")
                          (Getenv (env ∪ vars) "MAILGUN_API_KEY"),
       context.WithTimeout (http.Ctx req) 10000000000,
       {| mailgun.from := Getenv (env ∪ vars) "MAILGUN_FROM_NAME" +:+ " <" +:+
                          Getenv (env ∪ vars) "MAILGUN_FROM_EMAIL" +:+ "@" +:+
                          Getenv (env ∪ vars) "MAILGUN_DOMAIN" +:+ ">";
          mailgun.subject := "Product Information";
          mailgun.text := bodyWithPrice p (strconv.FormatFloat_f (Price p) 2);
          mailgun.to := [RecipientEmail p] |})])%list.
Proof.
  intros Hmain Hm Hp Hb.
  destruct (main_router provider bindProductEmail _ env e Hmain) as (vars' & [= <-] & ->).
  rewrite (accepted_world provider bindProductEmail vars env req w p Hm Hp Hb).
  reflexivity.
Qed.

Lemma accepted_request_calls_send_witness :
  main queuedProvider widgetBind (inr acmeVars) ∅ =
    inr (router queuedProvider widgetBind acmeVars ∅) /\
  http.Method widgetRequest = "POST" /\
  http.Path widgetRequest = "/send-product" /\
  widgetBind (http.Body widgetRequest) = inr widget /\
  outbox (snd (gin.ServeHTTP (router queuedProvider widgetBind acmeVars ∅)
                 widgetRequest quiet)) =
    [(mailgun.NewMailgun "acme.com" "key-0",
      context.WithTimeout context.Background 10000000000,
      {| mailgun.from := "Acme <sales@acme.com>";
         mailgun.subject := "Product Information";
         mailgun.text := bodyWithPrice widget "9.99";
         mailgun.to := ["a@b.com"] |})].
Proof.
  split; [reflexivity|]. split; [reflexivity|]. split; [reflexivity|].
  split; [reflexivity|].
  exact (accepted_request_calls_send queuedProvider widgetBind acmeVars ∅
           (router queuedProvider widgetBind acmeVars ∅) widgetRequest quiet widget
           eq_refl eq_refl eq_refl eq_refl).
Defined.

(** X2: when none of the four variables is set, [main] still starts the
    router, and for an accepted request the handler still calls [mg.Send]:
    on a client with an empty domain and an empty key, with the sender
    [" <@>"]; the program itself checks none of the four values. *)
Theorem unset_variables_read_empty (provider : mailgun.Provider)
    (bindProductEmail : string -> string + ProductEmail)
    (vars env : gmap string string)
    (req : http.Request) (w : World) (p : ProductEmail) :
  (env ∪ vars) !! "MAILGUN_DOMAIN" = None ->
  (env ∪ vars) !! "MAILGUN_API_KEY" = None ->
  (env ∪ vars) !! "MAILGUN_FROM_NAME" = None ->
  (env ∪ vars) !! "MAILGUN_FROM_EMAIL" = None ->
  http.Method req = "POST" ->
  http.Path req = "/send-product" ->
  bindProductEmail (http.Body req) = inr p ->
  exists e : gin.Engine,
    main provider bindProductEmail (inr vars) env = inr e /\
    exists m : mailgun.Message,
      outbox (snd (gin.ServeHTTP e req w)) =
        (outbox w ++ [(mailgun.NewMailgun EmptyString EmptyString,
                       context.WithTimeout (http.Ctx req) 10000000000, m)])%list /\
      mailgun.from m = " <@>" /\
      mailgun.to m = [RecipientEmail p].
Proof.
  intros Hd Hk Hn He Hm Hp Hb.
  exists (router provider bindProductEmail vars env). split; [reflexivity|].
  exists (productMessage (NewEmailService (loadedConfig vars env)) p).
  rewrite (accepted_world provider bindProductEmail vars env req w p Hm Hp Hb).
  unfold productMessage, NewEmailService, loadedConfig, Getenv. simpl.
  rewrite Hd, Hk, Hn, He. repeat split.
Qed.

Lemma unset_variables_read_empty_witness :
  ((∅ : gmap string string) ∪ ∅) !! "MAILGUN_DOMAIN" = None /\
  http.Method widgetRequest = "POST" /\
  exists e : gin.Engine,
    main queuedProvider widgetBind (inr ∅) ∅ = inr e /\
    exists m : mailgun.Message,
      outbox (snd (gin.ServeHTTP e widgetRequest quiet)) =
        (outbox quiet ++ [(mailgun.NewMailgun EmptyString EmptyString,
                           context.WithTimeout (http.Ctx widgetRequest) 10000000000,
                           m)])%list /\
      mailgun.from m = " <@>" /\
      mailgun.to m = [RecipientEmail widget].
Proof.
  split; [reflexivity|]. split; [reflexivity|].
  exact (unset_variables_read_empty queuedProvider widgetBind ∅ ∅ widgetRequest quiet widget
           eq_refl eq_refl eq_refl eq_refl eq_refl eq_refl eq_refl).
Defined.

(** X8: the API key goes into the client and nowhere else: under two
    configurations that differ only in the key, [SendProductEmail] calls
    [mg.Send] with the same message and the same context, on clients that
    differ only in the key. *)
Theorem api_key_stays_in_client (provider : mailgun.Provider)
    (c1 c2 : Config) (ctx : context.Context) (data : ProductEmail) (w : World) :
  Domain c1 = Domain c2 ->
  FromName c1 = FromName c2 ->
  FromEmail c1 = FromEmail c2 ->
  exists m : mailgun.Message,
    outbox (snd (SendProductEmail provider (NewEmailService c1) ctx data w)) =
      (outbox w ++ [(mailgun.NewMailgun (Domain c1) (ApiKey c1), ctx, m)])%list /\
    outbox (snd (SendProductEmail provider (NewEmailService c2) ctx data w)) =
      (outbox w ++ [(mailgun.NewMailgun (Domain c1) (ApiKey c2), ctx, m)])%list.
Proof.
  intros Hd Hn He.
  exists (productMessage (NewEmailService c1) data).
  split; [reflexivity|].
  rewrite SendProductEmail_eq. simpl.
  unfold productMessage. simpl. rewrite <- Hd, <- Hn, <- He. reflexivity.
Qed.

Lemma api_key_stays_in_client_witness :
  Domain acme = "acme.com" /\
  exists m : mailgun.Message,
    outbox (snd (SendProductEmail queuedProvider (NewEmailService acme)
                   context.Background widget quiet)) =
      [(mailgun.NewMailgun "acme.com" "key-0", context.Background, m)] /\
    outbox (snd (SendProductEmail queuedProvider
                   (NewEmailService {| Domain := "acme.com"; ApiKey := "key-1";
                                       FromName := "Acme"; FromEmail := "sales" |})
                   context.Background widget quiet)) =
      [(mailgun.NewMailgun "acme.com" "key-1", context.Background, m)].
Proof.
  split; [reflexivity|].
  exact (api_key_stays_in_client queuedProvider acme
           {| Domain := "acme.com"; ApiKey := "key-1";
              FromName := "Acme"; FromEmail := "sales" |}
           context.Background widget quiet eq_refl eq_refl eq_refl).
Defined.

(** X3: serving a request leaves the log of the earlier calls of [mg.Send]
    as it is and makes at most one call; it makes one exactly when the
    request is a POST of [/send-product] whose body binds. *)
Theorem send_called_iff_accepted (provider : mailgun.Provider)
    (bindProductEmail : string -> string + ProductEmail)
    (dotenv : string + gmap string string) (env : gmap string string)
    (e : gin.Engine) (req : http.Request) (w : World) :
  main provider bindProductEmail dotenv env = inr e ->
  (snd (gin.ServeHTTP e req w) = w \/
   exists entry, outbox (snd (gin.ServeHTTP e req w)) = (outbox w ++ [entry])%list) /\
  ((exists entry, outbox (snd (gin.ServeHTTP e req w)) = (outbox w ++ [entry])%list) <->
   (http.Method req = "POST" /\ http.Path req = "/send-product" /\
    exists p, bindProductEmail (http.Body req) = inr p)).
Proof.
  intros Hmain.
  destruct (main_router provider bindProductEmail dotenv env e Hmain) as (vars & -> & ->).
  destruct (serve_cases provider bindProductEmail vars env req w)
    as [(Hopt & Hr)|[(Hm & Hs & Hr)|[(Hm & Hp & err & Hb & Hr)|
       [(Hm & Hp & p & x & Hb & _ & Hr)|[(Hm & Hp & p & Hb & _ & Hr)|(Hopt & Hno & Hr)]]]]];
    rewrite Hr; simpl.
  - split; [left; reflexivity|]. split.
    + intros [entry H]. destruct (outbox_grows_ne w entry H).
    + intros (Hm & _). rewrite Hopt in Hm. discriminate Hm.
  - split; [left; reflexivity|]. split.
    + intros [entry H]. destruct (outbox_grows_ne w entry H).
    + intros (_ & Hp & _). rewrite Hs in Hp. discriminate Hp.
  - split; [left; reflexivity|]. split.
    + intros [entry H]. destruct (outbox_grows_ne w entry H).
    + intros (_ & _ & p & Hb'). rewrite Hb in Hb'. discriminate Hb'.
  - split; [right; eexists; reflexivity|]. split.
    + intros _. split; [exact Hm|]. split; [exact Hp|]. exists p. exact Hb.
    + intros _. eexists. reflexivity.
  - split; [right; eexists; reflexivity|]. split.
    + intros _. split; [exact Hm|]. split; [exact Hp|]. exists p. exact Hb.
    + intros _. eexists. reflexivity.
  - split; [left; reflexivity|]. split.
    + intros [entry H]. destruct (outbox_grows_ne w entry H).
    + intros (Hm & Hp & _). exfalso. apply Hno. split; [exact Hm|left; exact Hp].
Qed.

Lemma send_called_iff_accepted_witness :
  main queuedProvider widgetBind (inr acmeVars) ∅ =
    inr (router queuedProvider widgetBind acmeVars ∅) /\
  snd (gin.ServeHTTP (router queuedProvider widgetBind acmeVars ∅) brokenRequest quiet) =
    quiet.
Proof.
  split; [reflexivity|].
  destruct (send_called_iff_accepted queuedProvider widgetBind (inr acmeVars) ∅
              (router queuedProvider widgetBind acmeVars ∅) brokenRequest quiet eq_refl)
    as [[Hsame|[entry Hgrow]] _].
  - exact Hsame.
  - vm_compute in Hgrow. discriminate Hgrow.
Defined.

(** ** The statuses of the server *)

(** X4: for a request handed to it that is neither a preflight nor a POST
    of [/send-product] or [/send-product/] (a GET of the route included)
    the router writes 404 with the plain text ["404 page not found"] and
    the CORS headers, and [mg.Send] is not called. (Of what the router
    writes, net/http keeps the body back from the client of a HEAD
    request.) *)
Theorem unmatched_request_gets_404 (provider : mailgun.Provider)
    (bindProductEmail : string -> string + ProductEmail)
    (dotenv : string + gmap string string) (env : gmap string string)
    (e : gin.Engine) (req : http.Request) (w : World) :
  main provider bindProductEmail dotenv env = inr e ->
  http.Method req <> "OPTIONS" ->
  ~ (http.Method req = "POST" /\
     (http.Path req = "/send-product" \/ http.Path req = "/send-product/")) ->
  gin.ServeHTTP e req w =
    ({| gin.StatusCode := 404;
        gin.Header := <["Content-Type" := ["text/plain"]]> corsHeader;
        gin.Body := [gin.Bytes "404 page not found"] |}, w).
Proof.
  intros Hmain Hopt Hno.
  destruct (main_router provider bindProductEmail dotenv env e Hmain) as (vars & -> & ->).
  apply serve_not_found; assumption.
Qed.

Lemma unmatched_request_gets_404_witness :
  main queuedProvider widgetBind (inr acmeVars) ∅ =
    inr (router queuedProvider widgetBind acmeVars ∅) /\
  http.Method lostRequest <> "OPTIONS" /\
  ~ (http.Method lostRequest = "POST" /\
     (http.Path lostRequest = "/send-product" \/ http.Path lostRequest = "/send-product/")) /\
  gin.ServeHTTP (router queuedProvider widgetBind acmeVars ∅) lostRequest quiet =
    ({| gin.StatusCode := 404;
        gin.Header := <["Content-Type" := ["text/plain"]]> corsHeader;
        gin.Body := [gin.Bytes "404 page not found"] |}, quiet).
Proof.
  assert (Hopt : http.Method lostRequest <> "OPTIONS") by (intros H; discriminate H).
  assert (Hno : ~ (http.Method lostRequest = "POST" /\
                   (http.Path lostRequest = "/send-product" \/
                    http.Path lostRequest = "/send-product/")))
    by (intros [H _]; discriminate H).
  split; [reflexivity|]. split; [exact Hopt|]. split; [exact Hno|].
  exact (unmatched_request_gets_404 queuedProvider widgetBind (inr acmeVars) ∅
           (router queuedProvider widgetBind acmeVars ∅) lostRequest quiet
           eq_refl Hopt Hno).
Defined.



(** X6: for every request handed to the router, the status it writes is one
    of 200, 204, 307, 400, 404 and 500; it is 204 exactly for the preflight
    requests, 307 exactly for a POST of [/send-product/], 400 exactly for a
    POST of [/send-product] whose body does not bind, and 404 exactly for
    the requests that are neither a preflight nor a POST of one of the two
    paths. *)
Theorem status_codes (provider : mailgun.Provider)
    (bindProductEmail : string -> string + ProductEmail)
    (dotenv : string + gmap string string) (env : gmap string string)
    (e : gin.Engine) (req : http.Request) (w : World) :
  main provider bindProductEmail dotenv env = inr e ->
  let status := gin.StatusCode (fst (gin.ServeHTTP e req w)) in
  (status = 200 \/ status = 204 \/ status = 307 \/
   status = 400 \/ status = 404 \/ status = 500) /\
  (status = 204 <-> http.Method req = "OPTIONS") /\
  (status = 307 <-> http.Method req = "POST" /\ http.Path req = "/send-product/") /\
  (status = 400 <-> http.Method req = "POST" /\ http.Path req = "/send-product" /\
                    exists err, bindProductEmail (http.Body req) = inl err) /\
  (status = 404 <-> http.Method req <> "OPTIONS" /\
                    ~ (http.Method req = "POST" /\
                       (http.Path req = "/send-product" \/
                        http.Path req = "/send-product/"))).
Proof.
  intros Hmain status. subst status.
  destruct (main_router provider bindProductEmail dotenv env e Hmain) as (vars & -> & ->).
  destruct (serve_cases provider bindProductEmail vars env req w)
    as [(Hopt & Hr)|[(Hm & Hs & Hr)|[(Hm & Hp & err & Hb & Hr)|
       [(Hm & Hp & p & x & Hb & _ & Hr)|[(Hm & Hp & p & Hb & _ & Hr)|(Hopt & Hno & Hr)]]]]];
    rewrite Hr; simpl.
  - split; [tauto|]. split; [tauto|].
    split; [split; [discriminate|intros [H _]; congruence]|].
    split; [split; [discriminate|intros [H _]; congruence]|].
    split; [discriminate|intros [H _]; congruence].
  - split; [tauto|]. split; [split; [discriminate|congruence]|].
    split; [tauto|].
    split; [split; [discriminate|intros (_ & H & _); congruence]|].
    split; [discriminate|]. intros [_ H]. exfalso. apply H. tauto.
  - split; [tauto|]. split; [split; [discriminate|congruence]|].
    split; [split; [discriminate|intros [_ H]; congruence]|].
    split; [split; [intros _|reflexivity]|].
    + split; [exact Hm|]. split; [exact Hp|]. exists err. exact Hb.
    + split; [discriminate|]. intros [_ H]. exfalso. apply H. tauto.
  - split; [tauto|]. split; [split; [discriminate|congruence]|].
    split; [split; [discriminate|intros [_ H]; congruence]|].
    split; [split; [discriminate|intros (_ & _ & err & H); congruence]|].
    split; [discriminate|]. intros [_ H]. exfalso. apply H. tauto.
  - split; [tauto|]. split; [split; [discriminate|congruence]|].
    split; [split; [discriminate|intros [_ H]; congruence]|].
    split; [split; [discriminate|intros (_ & _ & err & H); congruence]|].
    split; [discriminate|]. intros [_ H]. exfalso. apply H. tauto.
  - split; [tauto|]. split; [split; [discriminate|congruence]|].
    split; [split; [discriminate|intros [H1 H2]; exfalso; apply Hno; tauto]|].
    split; [split; [discriminate|intros (H1 & H2 & _); exfalso; apply Hno; tauto]|].
    tauto.
Qed.

Lemma status_codes_witness :
  main queuedProvider widgetBind (inr acmeVars) ∅ =
    inr (router queuedProvider widgetBind acmeVars ∅) /\
  (gin.StatusCode (fst (gin.ServeHTTP (router queuedProvider widgetBind acmeVars ∅)
                          preflightRequest quiet)) = 204 <->
   http.Method preflightRequest = "OPTIONS").
Proof.
  split; [reflexivity|].
  exact (proj1 (proj2 (status_codes queuedProvider widgetBind (inr acmeVars) ∅
                         (router queuedProvider widgetBind acmeVars ∅)
                         preflightRequest quiet eq_refl))).
Defined.

(** X7: on the route, a response to a body that binds (200 or 500) carries
    [Content-Type: application/json; charset=utf-8]; the 400 given to a
    body that does not bind carries no content type of the handler's,
    [BindJSON] having sent the header before [c.JSON] sets one. *)
Theorem content_type_of_responses (provider : mailgun.Provider)
    (bindProductEmail : string -> string + ProductEmail)
    (dotenv : string + gmap string string) (env : gmap string string)
    (e : gin.Engine) (req : http.Request) (w : World) :
  main provider bindProductEmail dotenv env = inr e ->
  http.Method req = "POST" ->
  http.Path req = "/send-product" ->
  (forall p, bindProductEmail (http.Body req) = inr p ->
     gin.Header (fst (gin.ServeHTTP e req w)) !! "Content-Type" =
       Some ["application/json; charset=utf-8"]) /\
  (forall err, bindProductEmail (http.Body req) = inl err ->
     gin.Header (fst (gin.ServeHTTP e req w)) !! "Content-Type" = None).
Proof.
  intros Hmain Hm Hp.
  destruct (main_router provider bindProductEmail dotenv env e Hmain) as (vars & -> & ->).
  split.
  - intros p Hb.
    destruct (mailgun.err (provider (mg (NewEmailService (loadedConfig vars env)))
                (sendContext req)
                (productMessage (NewEmailService (loadedConfig vars env)) p)))
      as [x|] eqn:Herr.
    + rewrite (serve_failed provider bindProductEmail vars env req w p x Hm Hp Hb Herr).
      vm_compute. reflexivity.
    + rewrite (serve_ok provider bindProductEmail vars env req w p Hm Hp Hb Herr).
      vm_compute. reflexivity.
  - intros err Hb.
    rewrite (serve_invalid provider bindProductEmail vars env req w err Hm Hp Hb).
    vm_compute. reflexivity.
Qed.

Lemma content_type_of_responses_witness :
  main queuedProvider widgetBind (inr acmeVars) ∅ =
    inr (router queuedProvider widgetBind acmeVars ∅) /\
  http.Method brokenRequest = "POST" /\
  http.Path brokenRequest = "/send-product" /\
  gin.Header (fst (gin.ServeHTTP (router queuedProvider widgetBind acmeVars ∅)
                     brokenRequest quiet)) !! "Content-Type" = None.
Proof.
  split; [reflexivity|]. split; [reflexivity|]. split; [reflexivity|].
  exact (proj2 (content_type_of_responses queuedProvider widgetBind (inr acmeVars) ∅
                  (router queuedProvider widgetBind acmeVars ∅) brokenRequest quiet
                  eq_refl eq_refl eq_refl) "invalid character" eq_refl).
Defined.

(** ** The CORS middleware on any context *)

(** X11: on a request that is not a preflight the middleware runs the rest
    of the chain on a context in which each of its four headers has the
    one value it sets, whatever values an earlier handler gave it, and in
    which every other header, the status, the body and the position in the
    chain are as they were. *)
Theorem cors_headers_overwrite (next : gin.Step) (c : gin.Context) (w : World) :
  http.Method (gin.Request c) <> "OPTIONS" ->
  exists c' : gin.Context,
    corsMiddleware next c w = next c' w /\
    gin.Request c' = gin.Request c /\
    gin.index c' = gin.index c /\
    gin.status (gin.Writer c') = gin.status (gin.Writer c) /\
    gin.written (gin.Writer c') = gin.written (gin.Writer c) /\
    gin.wire (gin.Writer c') = gin.wire (gin.Writer c) /\
    gin.body (gin.Writer c') = gin.body (gin.Writer c) /\
    gin.header (gin.Writer c') !! "Access-Control-Allow-Origin" =
      Some ["http://localhost:5173"] /\
    gin.header (gin.Writer c') !! "Access-Control-Allow-Methods" = Some ["POST, OPTIONS"] /\
    gin.header (gin.Writer c') !! "Access-Control-Allow-Headers" = Some ["Content-Type"] /\
    gin.header (gin.Writer c') !! "Access-Control-Max-Age" = Some ["86400"] /\
    (forall name : string, name ∉ corsNames ->
       gin.header (gin.Writer c') !! name = gin.header (gin.Writer c) !! name).
Proof.
  intros Hopt. exists (withCors c).
  assert (Eopt : String.eqb (http.Method (gin.Request c)) "OPTIONS" = false)
    by (apply String.eqb_neq; exact Hopt).
  split.
  { unfold corsMiddleware.
    change (gin.Header_Set "Access-Control-Max-Age" "86400" _) with (withCors c).
    change (http.Method (gin.Request (withCors c))) with (http.Method (gin.Request c)).
    rewrite Eopt. reflexivity. }
  do 6 (split; [reflexivity|]).
  unfold withCors, gin.Header_Set, http.Header_Set. simpl.
  split; [rewrite !lookup_insert_ne by discriminate; apply lookup_insert_eq|].
  split; [rewrite !lookup_insert_ne by discriminate; apply lookup_insert_eq|].
  split; [rewrite !lookup_insert_ne by discriminate; apply lookup_insert_eq|].
  split; [apply lookup_insert_eq|].
  intros name Hname. unfold corsNames in Hname.
  rewrite !not_elem_of_cons in Hname. destruct Hname as (H1 & H2 & H3 & H4 & _).
  rewrite !lookup_insert_ne by congruence. reflexivity.
Qed.

Lemma cors_headers_overwrite_witness :
  http.Method (gin.Request {| gin.Request := widgetRequest; gin.Writer := gin.newWriter;
                              gin.index := 2; gin.Errors := [] |}) <> "OPTIONS" /\
  exists c' : gin.Context,
    corsMiddleware (fun c0 w0 => (c0, w0))
      {| gin.Request := widgetRequest; gin.Writer := gin.newWriter;
         gin.index := 2; gin.Errors := [] |} quiet = (c', quiet) /\
    gin.header (gin.Writer c') !! "Access-Control-Max-Age" = Some ["86400"].
Proof.
  assert (Hopt : http.Method (gin.Request {| gin.Request := widgetRequest;
                   gin.Writer := gin.newWriter; gin.index := 2; gin.Errors := [] |})
                 <> "OPTIONS") by (intros H; discriminate H).
  split; [exact Hopt|].
  destruct (cors_headers_overwrite (fun c0 w0 => (c0, w0))
              {| gin.Request := widgetRequest; gin.Writer := gin.newWriter;
                 gin.index := 2; gin.Errors := [] |} quiet Hopt)
    as (c' & Hrun & _ & _ & _ & _ & _ & _ & _ & _ & _ & Hage & _).
  exists c'. split; [exact Hrun|exact Hage].
Defined.

(** ** Whole and small prices *)

Lemma fmtF_whole (neg : bool) (k : Z) :
  0 <= k ->
  strconv.fmtF neg (k * 100) 2 =
  (if neg then "-" else EmptyString) +:+ strconv.decimal k +:+ ".00".
Proof.
  intros Hk. unfold strconv.fmtF. change (10 ^ Z.of_nat 2) with 100.
  rewrite Z.div_mul, Z.mod_mul by lia. reflexivity.
Qed.

Lemma roundHalfEven_exact (k den : Z) :
  0 < den -> strconv.roundHalfEven (k * den) den = k.
Proof.
  intros Hden. unfold strconv.roundHalfEven.
  rewrite Z.div_mul, Z.mod_mul by lia.
  destruct (Z.compare_spec (2 * 0) den); [lia|reflexivity|lia].
Qed.

Lemma roundHalfEven_small (num den : Z) :
  0 <= num -> 2 * num < den -> strconv.roundHalfEven num den = 0.
Proof.
  intros Hn Hs. unfold strconv.roundHalfEven.
  rewrite Z.div_small, Z.mod_small by lia.
  destruct (Z.compare_spec (2 * num) den); [lia|reflexivity|lia].
Qed.

(** X9: a price whose value is a whole number [k] is rendered in the body
    as the sign, the decimal numeral of [k] and [.00]. *)
Theorem whole_price_rendering (s : EmailService) (data : ProductEmail) (k : Z) :
  wholeValue (Price data) k ->
  formatProductEmail s data =
  bodyWithPrice data (signText (Price data) +:+ strconv.decimal k +:+ ".00").
Proof.
  intros Hk. rewrite formatProductEmail_eq. unfold bodyWithPrice.
  assert (Hprice : strconv.FormatFloat_f (Price data) 2 =
                   signText (Price data) +:+ strconv.decimal k +:+ ".00");
    [|rewrite Hprice; reflexivity].
  destruct (Price data) as [sg|sg| |sg m e]; simpl in Hk; try contradiction.
  - subst k. destruct sg; reflexivity.
  - unfold strconv.FormatFloat_f, strconv.scaled, signText. simpl signbit.
    change (10 ^ Z.of_nat 2) with 100.
    destruct (0 <=? e) eqn:E.
    + apply Z.leb_le in E. subst k.
      apply fmtF_whole.
      assert (0 < 2 ^ e) by (apply Z.pow_pos_nonneg; lia). nia.
    + apply Z.leb_gt in E.
      assert (Hden : 0 < 2 ^ (- e)) by (apply Z.pow_pos_nonneg; lia).
      rewrite Hk.
      replace (k * 2 ^ (- e) * 100) with (k * 100 * 2 ^ (- e)) by ring.
      rewrite roundHalfEven_exact by exact Hden.
      apply fmtF_whole. nia.
Qed.

Lemma whole_price_rendering_witness :
  wholeValue (float64Of 5 1) 5 /\
  formatProductEmail (NewEmailService acme)
    {| ProductName := "Widget"; Price := float64Of 5 1;
       Description := "A widget"; RecipientEmail := "a@b.com" |} =
  bodyWithPrice
    {| ProductName := "Widget"; Price := float64Of 5 1;
       Description := "A widget"; RecipientEmail := "a@b.com" |} "5.00".
Proof.
  assert (Hk : wholeValue (float64Of 5 1) 5) by (vm_compute; reflexivity).
  split; [exact Hk|].
  exact (whole_price_rendering (NewEmailService acme)
           {| ProductName := "Widget"; Price := float64Of 5 1;
              Description := "A widget"; RecipientEmail := "a@b.com" |} 5 Hk).
Defined.

(** X10: a finite price of magnitude below 0.005 is rendered in the body as
    [0.00], with the minus sign when the price is negative (negative zero
    included). *)
Theorem small_price_rendering (s : EmailService) (data : ProductEmail) :
  isFinite (Price data) = true ->
  (inject_Z 200 * magnitude (Price data) < 1)%Q ->
  formatProductEmail s data =
  bodyWithPrice data (signText (Price data) +:+ "0.00").
Proof.
  intros Hfin Hsmall. rewrite formatProductEmail_eq. unfold bodyWithPrice.
  assert (Hprice : strconv.FormatFloat_f (Price data) 2 =
                   signText (Price data) +:+ "0.00");
    [|rewrite Hprice; reflexivity].
  destruct (Price data) as [sg|sg| |sg m e]; try discriminate Hfin.
  - destruct sg; reflexivity.
  - unfold strconv.FormatFloat_f, strconv.scaled, signText. simpl signbit.
    change (10 ^ Z.of_nat 2) with 100.
    unfold magnitude in Hsmall.
    destruct (0 <=? e) eqn:E.
    + exfalso. apply Z.leb_le in E.
      assert (0 < 2 ^ e) by (apply Z.pow_pos_nonneg; lia).
      revert Hsmall. unfold Qlt, Qmult, inject_Z. simpl. nia.
    + apply Z.leb_gt in E.
      assert (Hd : Z.pos (2 ^ Z.to_pos (- e)) = 2 ^ (- e)).
      { rewrite Pos2Z.inj_pow, Z2Pos.id by lia. reflexivity. }
      revert Hsmall. unfold Qlt, Qmult, inject_Z. simpl.
      rewrite Pos.mul_1_l, Hd. intros Hsmall.
      rewrite roundHalfEven_small by lia.
      destruct sg; reflexivity.
Qed.

Lemma small_price_rendering_witness :
  isFinite (float64Of (-1) 1000) = true /\
  (inject_Z 200 * magnitude (float64Of (-1) 1000) < 1)%Q /\
  formatProductEmail (NewEmailService acme)
    {| ProductName := "Widget"; Price := float64Of (-1) 1000;
       Description := "A widget"; RecipientEmail := "a@b.com" |} =
  bodyWithPrice
    {| ProductName := "Widget"; Price := float64Of (-1) 1000;
       Description := "A widget"; RecipientEmail := "a@b.com" |} "-0.00".
Proof.
  assert (Hs : (inject_Z 200 * magnitude (float64Of (-1) 1000) < 1)%Q)
    by (vm_compute; reflexivity).
  split; [reflexivity|]. split; [exact Hs|].
  exact (small_price_rendering (NewEmailService acme)
           {| ProductName := "Widget"; Price := float64Of (-1) 1000;
              Description := "A widget"; RecipientEmail := "a@b.com" |} eq_refl Hs).
Defined.
